(** * RTCP-mux media transport (pjmedia/transport_mux.c)

    A shallow embedding of the RTCP-mux decorator of pjmedia: a media
    transport that wraps a member transport, forwards every operation to
    it, splits the inbound packets of the shared channel into RTP and RTCP,
    and adds the [rtcp-mux] attribute to the local SDP.

    The C code works on pointers: the decorator object, the SDP session and
    its media, the attach parameters.  The embedding keeps the pointers
    (addresses in [N], [0] is NULL), a heap for the objects the code
    dereferences, and an explicit state-and-fault monad: every operation is
    a function from the world before the call to either a result and the
    world after it, or a fault where C has undefined behaviour (a null or
    dangling dereference, a read outside an array). *)

From Stdlib Require Import ZArith NArith String List Bool Lia.
From Stdlib Require Import Strings.Byte.
From stdpp Require Import base option list gmap.

Open Scope Z_scope.

(** ** Pointers, status codes, function pointers *)

Definition ptr := N.
Definition NULL : ptr := 0%N.

Definition is_null (p : ptr) : bool := N.eqb p NULL.

Definition pj_status_t := Z.
Definition PJ_SUCCESS : pj_status_t := 0.

(** Modelled from the spec: pj/errno.h is not part of the sources.  The
    spec's [InvalidArgument] is PJ_EINVAL, which pjlib numbers 70004; only
    its being different from PJ_SUCCESS matters below. *)
Definition PJ_EINVAL : pj_status_t := 70004.

(** Modelled from the spec: the enumeration pjmedia_transport_type of
    pjmedia/transport.h is not part of the sources; UDP is its default,
    first value. *)
Definition PJMEDIA_TRANSPORT_TYPE_UDP : Z := 0.

(** Function pointers of the callback type
    [void (cb)(void *user_data, void *pkt, pj_ssize_t size)].
    [FnMuxRtp] and [FnMuxRtcp] are the addresses of the two static
    routines of this file, [&mux_rtp_cb] and [&mux_rtcp_cb]; [FnUser] are
    the functions of the stream that attaches. *)
Inductive fnptr : Type :=
| FnNull
| FnMuxRtp
| FnMuxRtcp
| FnUser (id : N).

Definition fn_is_null (f : fnptr) : bool :=
  match f with FnNull => true | _ => false end.

(** ** The decorator object *)

(** [struct transport_mux].  [base] is flattened to its [name] and [type]
    fields; [base.op] always points to the constant [transport_mux_op]. *)
Record transport_mux : Type := mk_transport_mux {
  base_name : string;
  base_type : Z;
  pool : ptr;
  mutex : ptr;
  user_data : ptr;
  rtp_cb : fnptr;
  rtcp_cb : fnptr;
  member_tp : ptr;
  member_tp_attached : bool
}.

Definition set_base_name (v : string) (m : transport_mux) : transport_mux :=
  mk_transport_mux v (base_type m) (pool m) (mutex m) (user_data m)
                   (rtp_cb m) (rtcp_cb m) (member_tp m) (member_tp_attached m).
Definition set_base_type (v : Z) (m : transport_mux) : transport_mux :=
  mk_transport_mux (base_name m) v (pool m) (mutex m) (user_data m)
                   (rtp_cb m) (rtcp_cb m) (member_tp m) (member_tp_attached m).
Definition set_pool (v : ptr) (m : transport_mux) : transport_mux :=
  mk_transport_mux (base_name m) (base_type m) v (mutex m) (user_data m)
                   (rtp_cb m) (rtcp_cb m) (member_tp m) (member_tp_attached m).
Definition set_mutex (v : ptr) (m : transport_mux) : transport_mux :=
  mk_transport_mux (base_name m) (base_type m) (pool m) v (user_data m)
                   (rtp_cb m) (rtcp_cb m) (member_tp m) (member_tp_attached m).
Definition set_user_data (v : ptr) (m : transport_mux) : transport_mux :=
  mk_transport_mux (base_name m) (base_type m) (pool m) (mutex m) v
                   (rtp_cb m) (rtcp_cb m) (member_tp m) (member_tp_attached m).
Definition set_rtp_cb (v : fnptr) (m : transport_mux) : transport_mux :=
  mk_transport_mux (base_name m) (base_type m) (pool m) (mutex m) (user_data m)
                   v (rtcp_cb m) (member_tp m) (member_tp_attached m).
Definition set_rtcp_cb (v : fnptr) (m : transport_mux) : transport_mux :=
  mk_transport_mux (base_name m) (base_type m) (pool m) (mutex m) (user_data m)
                   (rtp_cb m) v (member_tp m) (member_tp_attached m).
Definition set_member_tp (v : ptr) (m : transport_mux) : transport_mux :=
  mk_transport_mux (base_name m) (base_type m) (pool m) (mutex m) (user_data m)
                   (rtp_cb m) (rtcp_cb m) v (member_tp_attached m).
Definition set_member_tp_attached (v : bool) (m : transport_mux) : transport_mux :=
  mk_transport_mux (base_name m) (base_type m) (pool m) (mutex m) (user_data m)
                   (rtp_cb m) (rtcp_cb m) (member_tp m) v.

(** What PJ_POOL_ZALLOC_T returns: every field zero. *)
Definition zero_mux : transport_mux :=
  mk_transport_mux EmptyString 0 NULL NULL NULL FnNull FnNull NULL false.

(** ** Session descriptions *)

(** [pjmedia_sdp_attr]: a name and a value; a NULL value pointer is [None]. *)
Record pjmedia_sdp_attr : Type := mk_sdp_attr {
  attr_name : string;
  attr_value : option string
}.

(** [pjmedia_sdp_media], reduced to its attribute array ([attr_count] and
    [attr[]] together are the list); the decorator reads no other field. *)
Record pjmedia_sdp_media : Type := mk_sdp_media {
  attr : list pjmedia_sdp_attr
}.

(** Modelled from the spec: pjmedia_sdp_session of pjmedia/sdp.h is not part
    of the sources.  The spec has the media descriptions of a session by
    index; the code reads them in the array [media] and never reads
    [media_count].  The session is reduced to these two fields.  [media] is
    the whole array [media[PJMEDIA_MAX_SDP_MEDIA]], every slot of it: its
    capacity, a constant of pjmedia that is outside the sources too, is a
    parameter, the length of the list.  The media lines of the session are
    the first [media_count] slots; the slots after them hold what the
    memory holds, NULL in a session that was allocated zeroed. *)
Record pjmedia_sdp_session : Type := mk_sdp_session {
  media_count : N;
  media : list ptr
}.

Record sdp_heap : Type := mk_sdp_heap {
  sessions : gmap N pjmedia_sdp_session;
  medias : gmap N pjmedia_sdp_media
}.

(** [static const pj_str_t ID_RTCPMUX = { "rtcp-mux", 8 }]. *)
Definition ID_RTCPMUX : string := "rtcp-mux".

(** ** Faults and results *)

Inductive fault : Type :=
| NullDeref      (* a field of a NULL pointer is read or written *)
| BadPointer     (* a pointer to no live object is dereferenced *)
| OutOfBounds.   (* an array is read outside its elements *)

Inductive outcome (A : Type) : Type :=
| Ok (a : A)
| Fault (f : fault).
Arguments Ok {A} a.
Arguments Fault {A} f.

Section Mux.

(** The fields of [pjmedia_transport_attach_param] other than the three the
    decorator touches ([stream], [media_type], the remote addresses, ...):
    the declaration is in pjmedia/transport.h, outside the sources, so they
    are kept as one opaque component. *)
Context {Rest : Type}.

Record pjmedia_transport_attach_param : Type := mk_attach_param {
  ap_user_data : ptr;
  ap_rtp_cb : fnptr;
  ap_rtcp_cb : fnptr;
  ap_rest : Rest
}.

Definition set_ap_user_data (v : ptr) (p : pjmedia_transport_attach_param) :=
  mk_attach_param v (ap_rtp_cb p) (ap_rtcp_cb p) (ap_rest p).
Definition set_ap_rtp_cb (v : fnptr) (p : pjmedia_transport_attach_param) :=
  mk_attach_param (ap_user_data p) v (ap_rtcp_cb p) (ap_rest p).
Definition set_ap_rtcp_cb (v : fnptr) (p : pjmedia_transport_attach_param) :=
  mk_attach_param (ap_user_data p) (ap_rtp_cb p) v (ap_rest p).

(** The state of everything behind the decorator: the member transports,
    the lock factory. *)
Context {Env : Type}.

(** The operation table of the member transport ([pjmedia_transport_op])
    and the two pjlib services the constructor uses.  Each operation takes
    the transport pointer it is called on and its arguments, and returns
    its status with the environment after the call; [encode_sdp] may also
    rewrite the session descriptions. *)
Record member_ops : Type := mk_member_ops {
  op_type : ptr -> Env -> Z;
  op_get_info : ptr -> ptr -> Env -> pj_status_t * Env;
  op_attach2 : ptr -> pjmedia_transport_attach_param -> Env -> pj_status_t * Env;
  op_detach : ptr -> ptr -> Env -> Env;
  op_send_rtp : ptr -> list byte -> Z -> Env -> pj_status_t * Env;
  op_send_rtcp : ptr -> list byte -> Z -> Env -> pj_status_t * Env;
  op_send_rtcp2 : ptr -> ptr -> Z -> list byte -> Z -> Env -> pj_status_t * Env;
  op_media_create : ptr -> ptr -> Z -> ptr -> N -> Env -> pj_status_t * Env;
  op_encode_sdp : ptr -> ptr -> ptr -> ptr -> N -> Env -> sdp_heap ->
                  pj_status_t * Env * sdp_heap;
  op_media_start : ptr -> ptr -> ptr -> ptr -> N -> Env -> pj_status_t * Env;
  op_media_stop : ptr -> Env -> pj_status_t * Env;
  op_simulate_lost : ptr -> Z -> Z -> Env -> pj_status_t * Env;
  op_lock_create : ptr -> Env -> pj_status_t * Env;
  op_pool_name : ptr -> string
}.

Variable ops : member_ops.

(** Every call that leaves the decorator, in the order it is made. *)
Inductive event : Type :=
| EvGetInfo (tp info : ptr)
| EvAttach2 (tp : ptr) (param : pjmedia_transport_attach_param)
| EvDetach (tp strm : ptr)
| EvSendRtp (tp : ptr) (pkt : list byte) (size : Z)
| EvSendRtcp (tp : ptr) (pkt : list byte) (size : Z)
| EvSendRtcp2 (tp addr : ptr) (addr_len : Z) (pkt : list byte) (size : Z)
| EvMediaCreate (tp sdp_pool : ptr) (options : Z) (sdp_remote : ptr) (media_index : N)
| EvEncodeSdp (tp sdp_pool sdp_local sdp_remote : ptr) (media_index : N)
| EvMediaStart (tp sdp_pool sdp_local sdp_remote : ptr) (media_index : N)
| EvMediaStop (tp : ptr)
| EvSimulateLost (tp : ptr) (dir pct_lost : Z)
| EvCallback (f : fnptr) (user_data : ptr) (pkt : list byte) (size : Z)
| EvLog (level : Z) (sender : string) (msg : string).

Record world : Type := mk_world {
  muxes : gmap N transport_mux;   (* the live decorator objects *)
  sdp : sdp_heap;                 (* the live SDP sessions and media *)
  env : Env;                      (* the member transports *)
  trace : list event;             (* the calls made so far *)
  brk : N                         (* the last address handed out *)
}.

Definition with_muxes (h : gmap N transport_mux) (w : world) : world :=
  mk_world h (sdp w) (env w) (trace w) (brk w).
Definition with_sdp (s : sdp_heap) (w : world) : world :=
  mk_world (muxes w) s (env w) (trace w) (brk w).
Definition with_env (e : Env) (w : world) : world :=
  mk_world (muxes w) (sdp w) e (trace w) (brk w).
Definition emit (ev : event) (w : world) : world :=
  mk_world (muxes w) (sdp w) (env w) (trace w ++ [ev]) (brk w).
Definition with_brk (b : N) (w : world) : world :=
  mk_world (muxes w) (sdp w) (env w) (trace w) b.

(** ** The monad of the operations *)

Definition mx (A : Type) : Type := world -> outcome (A * world).

Definition ret {A} (a : A) : mx A := fun w => Ok (a, w).

Definition bind {A B} (m : mx A) (k : A -> mx B) : mx B :=
  fun w => match m w with
           | Ok (a, w') => k a w'
           | Fault f => Fault f
           end.

Definition fail {A} (f : fault) : mx A := fun _ => Fault f.

#[local] Notation "'do' x <- m ; k" := (bind m (fun x => k))
  (at level 10, x name, m at level 100, k at level 200).
#[local] Notation "'do_' m ; k" := (bind m (fun _ => k))
  (at level 10, m at level 100, k at level 200).

(** ** Memory accesses *)

(** [*(transport_mux* )p], read. *)
Definition load_mux (p : ptr) : mx transport_mux :=
  fun w => if is_null p then Fault NullDeref
           else match muxes w !! p with
                | Some m => Ok (m, w)
                | None => Fault BadPointer
                end.

(** [p->field = v], as an update [f] of the object at [p]. *)
Definition modify_mux (p : ptr) (f : transport_mux -> transport_mux) : mx unit :=
  fun w => if is_null p then Fault NullDeref
           else match muxes w !! p with
                | Some m => Ok (tt, with_muxes (<[p := f m]> (muxes w)) w)
                | None => Fault BadPointer
                end.

(** [data[i]] on the bytes of a packet buffer, as an [unsigned char]. *)
Definition read_byte (data : list byte) (i : nat) : mx Z :=
  match data !! i with
  | Some b => ret (Z.of_N (Byte.to_N b))
  | None => fail OutOfBounds
  end.

(** [sdp_local->media[media_index]]: a read in the array, outside it from
    its capacity on; [media_count] is not looked at. *)
Definition load_media_slot (sdp_local : ptr) (media_index : N) : mx ptr :=
  fun w => if is_null sdp_local then Fault NullDeref
           else match sessions (sdp w) !! sdp_local with
                | None => Fault BadPointer
                | Some s => match media s !! N.to_nat media_index with
                            | Some m => Ok (m, w)
                            | None => Fault OutOfBounds
                            end
                end.

(** ** Macros and services of pjlib *)

(** Modelled from the spec: PJ_ASSERT_RETURN of pj/assert.h is not part of
    the sources.  An operation whose required argument is absent fails with
    the given status and does nothing else. *)
Definition PJ_ASSERT_RETURN {A} (expr : bool) (retval : A) (k : mx A) : mx A :=
  if expr then k else ret retval.

(** Modelled from the spec: pj_lock_acquire and pj_lock_release of pj/lock.h
    are not part of the sources.  The guard serialises the accesses to the
    callback triple between threads; in this sequential embedding taking
    and releasing it changes nothing. *)
Definition pj_lock_acquire (lock : ptr) : mx unit := ret tt.
Definition pj_lock_release (lock : ptr) : mx unit := ret tt.
Definition pj_lock_destroy (lock : ptr) : mx unit := ret tt.

(** Modelled from the spec: PJ_LOG of pj/log.h is not part of the sources.
    The diagnostics sink is called with a severity level, the name of the
    instance and a message, and has no effect on the control flow. *)
Definition PJ_LOG (level : Z) (sender msg : string) : mx unit :=
  fun w => Ok (tt, emit (EvLog level sender msg) w).

(** An address that was never handed out; never NULL. *)
Definition fresh_addr : mx ptr :=
  fun w => let a := N.succ (brk w) in Ok (a, with_brk a w).

(** Modelled from the spec: pjmedia_endpt_create_pool of pjmedia/endpoint.h
    is not part of the sources.  It allocates a private memory arena for
    the instance. *)
Definition pjmedia_endpt_create_pool (endpt : ptr) : mx ptr := fresh_addr.

(** Modelled from the spec: PJ_POOL_ZALLOC_T of pj/pool.h is not part of the
    sources.  PJ_POOL_ZALLOC_T(pool, transport_mux) gives a new object of
    the arena with every field zero. *)
Definition PJ_POOL_ZALLOC_T (pool : ptr) : mx ptr :=
  do a <- fresh_addr;
  fun w => Ok (a, with_muxes (<[a := zero_mux]> (muxes w)) w).

(** Modelled from the spec: pj_pool_release of pj/pool.h is not part of the
    sources.  Releasing the arena frees the objects that live in it: here
    the decorators whose [pool] it is. *)
Definition pj_pool_release (p : ptr) : mx unit :=
  fun w => Ok (tt, with_muxes (filter (fun kv => pool (snd kv) <> p) (muxes w)) w).

(** Modelled from the spec: pj_lock_create_recursive_mutex of pj/lock.h is
    not part of the sources.  It creates the guard or fails with a status;
    the lock pointer is written only on success. *)
Definition pj_lock_create_recursive_mutex (pool : ptr) : mx (pj_status_t * ptr) :=
  fun w => let '(st, e) := op_lock_create ops pool (env w) in
           if Z.eqb st PJ_SUCCESS
           then (do a <- fresh_addr; ret (st, a)) (with_env e w)
           else Ok ((st, NULL), with_env e w).

(** ** The member transport, seen through pjmedia/transport.h *)

(** Modelled from the spec: the inline wrappers pjmedia_transport_xxx of
    pjmedia/transport.h are not part of the sources.  Each one calls the
    operation of the same name in the table of the transport it is given;
    it reads the table through the pointer and so faults on NULL.
    [member_call] is that common shape: the call is recorded, the
    operation answers and moves the environment. *)

Definition member_call {A} (tp : ptr) (ev : event)
           (op : Env -> A * Env) : mx A :=
  fun w => if is_null tp then Fault NullDeref
           else let '(r, e) := op (env w) in Ok (r, emit ev (with_env e w)).

(** Modelled from the spec: pjmedia_transport_get_info of
    pjmedia/transport.h is not part of the sources; it calls [get_info] of
    the operation table of [tp]. *)
Definition pjmedia_transport_get_info (tp info : ptr) : mx pj_status_t :=
  member_call tp (EvGetInfo tp info) (op_get_info ops tp info).

(** Modelled from the spec: pjmedia_transport_attach2 of
    pjmedia/transport.h is not part of the sources; it calls [attach2] of
    the operation table of [tp]. *)
Definition pjmedia_transport_attach2 (tp : ptr)
           (att_param : pjmedia_transport_attach_param) : mx pj_status_t :=
  member_call tp (EvAttach2 tp att_param) (op_attach2 ops tp att_param).

(** Modelled from the spec: pjmedia_transport_detach of
    pjmedia/transport.h is not part of the sources; it calls [detach] of
    the operation table of [tp]. *)
Definition pjmedia_transport_detach (tp user_data : ptr) : mx unit :=
  member_call tp (EvDetach tp user_data)
              (fun e => (tt, op_detach ops tp user_data e)).

(** Modelled from the spec: pjmedia_transport_send_rtp of
    pjmedia/transport.h is not part of the sources; it calls [send_rtp] of
    the operation table of [tp]. *)
Definition pjmedia_transport_send_rtp (tp : ptr) (pkt : list byte) (size : Z)
  : mx pj_status_t :=
  member_call tp (EvSendRtp tp pkt size) (op_send_rtp ops tp pkt size).

(** Modelled from the spec: pjmedia_transport_send_rtcp of
    pjmedia/transport.h is not part of the sources; it calls [send_rtcp] of
    the operation table of [tp]. *)
Definition pjmedia_transport_send_rtcp (tp : ptr) (pkt : list byte) (size : Z)
  : mx pj_status_t :=
  member_call tp (EvSendRtcp tp pkt size) (op_send_rtcp ops tp pkt size).

(** Modelled from the spec: pjmedia_transport_send_rtcp2 of
    pjmedia/transport.h is not part of the sources; it calls [send_rtcp2] of
    the operation table of [tp]. *)
Definition pjmedia_transport_send_rtcp2 (tp addr : ptr) (addr_len : Z)
           (pkt : list byte) (size : Z) : mx pj_status_t :=
  member_call tp (EvSendRtcp2 tp addr addr_len pkt size)
              (op_send_rtcp2 ops tp addr addr_len pkt size).

(** Modelled from the spec: pjmedia_transport_media_create of
    pjmedia/transport.h is not part of the sources; it calls [media_create] of
    the operation table of [tp]. *)
Definition pjmedia_transport_media_create (tp sdp_pool : ptr) (options : Z)
           (sdp_remote : ptr) (media_index : N) : mx pj_status_t :=
  member_call tp (EvMediaCreate tp sdp_pool options sdp_remote media_index)
              (op_media_create ops tp sdp_pool options sdp_remote media_index).

(** Modelled from the spec: pjmedia_transport_encode_sdp of
    pjmedia/transport.h is not part of the sources; it calls [encode_sdp] of
    the operation table of [tp], which may also rewrite the session
    descriptions. *)
Definition pjmedia_transport_encode_sdp (tp sdp_pool sdp_local sdp_remote : ptr)
           (media_index : N) : mx pj_status_t :=
  fun w => if is_null tp then Fault NullDeref
           else let '(st, e, s) :=
                  op_encode_sdp ops tp sdp_pool sdp_local sdp_remote media_index
                                (env w) (sdp w) in
                Ok (st, emit (EvEncodeSdp tp sdp_pool sdp_local sdp_remote media_index)
                             (with_sdp s (with_env e w))).

(** Modelled from the spec: pjmedia_transport_media_start of
    pjmedia/transport.h is not part of the sources; it calls [media_start] of
    the operation table of [tp]. *)
Definition pjmedia_transport_media_start (tp sdp_pool sdp_local sdp_remote : ptr)
           (media_index : N) : mx pj_status_t :=
  member_call tp (EvMediaStart tp sdp_pool sdp_local sdp_remote media_index)
              (op_media_start ops tp sdp_pool sdp_local sdp_remote media_index).

(** Modelled from the spec: pjmedia_transport_media_stop of
    pjmedia/transport.h is not part of the sources; it calls [media_stop] of
    the operation table of [tp]. *)
Definition pjmedia_transport_media_stop (tp : ptr) : mx pj_status_t :=
  member_call tp (EvMediaStop tp) (op_media_stop ops tp).

(** Modelled from the spec: pjmedia_transport_simulate_lost of
    pjmedia/transport.h is not part of the sources; it calls [simulate_lost] of
    the operation table of [tp]. *)
Definition pjmedia_transport_simulate_lost (tp : ptr) (dir pct_lost : Z)
  : mx pj_status_t :=
  member_call tp (EvSimulateLost tp dir pct_lost)
              (op_simulate_lost ops tp dir pct_lost).

(** A call through a callback pointer of the stream. *)
Definition invoke_cb (f : fnptr) (user_data : ptr) (pkt : list byte) (size : Z)
  : mx unit :=
  fun w => if fn_is_null f then Fault NullDeref
           else Ok (tt, emit (EvCallback f user_data pkt size) w).

(** Modelled from the spec: pjmedia_sdp_attr_create of pjmedia/sdp.h is not
    part of the sources.  It builds an attribute with the given name; a NULL
    value gives an attribute with no value. *)
Definition pjmedia_sdp_attr_create (sdp_pool : ptr) (name : string)
           (value : option string) : pjmedia_sdp_attr :=
  mk_sdp_attr name value.

(** Modelled from the spec: pjmedia_sdp_media_add_attr of pjmedia/sdp.h is
    not part of the sources.  It appends the attribute to the attributes of
    the media description, after those already there. *)
Definition pjmedia_sdp_media_add_attr (m : ptr) (a : pjmedia_sdp_attr) : mx unit :=
  fun w => if is_null m then Fault NullDeref
           else match medias (sdp w) !! m with
                | None => Fault BadPointer
                | Some md =>
                    Ok (tt, with_sdp
                              (mk_sdp_heap (sessions (sdp w))
                                 (<[m := mk_sdp_media (attr md ++ [a])]> (medias (sdp w))))
                              w)
                end.

(** ** The operations of the decorator (transport_mux.c) *)

(** [pjmedia_transport_mux_create].  The pointer stored through [p_tp] is
    the second component of the result, [None] when nothing is stored. *)
Definition pjmedia_transport_mux_create (endpt tp p_tp : ptr)
  : mx (pj_status_t * option ptr) :=
  PJ_ASSERT_RETURN (negb (is_null endpt) && negb (is_null tp) && negb (is_null p_tp))
                   (PJ_EINVAL, None)
    (do pool <- pjmedia_endpt_create_pool endpt;
     do mux <- PJ_POOL_ZALLOC_T pool;
     do_ modify_mux mux (set_pool pool);
     do r <- pj_lock_create_recursive_mutex pool;
     let status := fst r in
     if negb (Z.eqb status PJ_SUCCESS) then
       do_ pj_pool_release pool;
       ret (status, None)
     else
       do_ modify_mux mux (set_mutex (snd r));
       do_ modify_mux mux (set_base_name (op_pool_name ops pool));
       do_ (if negb (is_null tp)
            then fun w => modify_mux mux (set_base_type (op_type ops tp (env w))) w
            else modify_mux mux (set_base_type PJMEDIA_TRANSPORT_TYPE_UDP));
       do_ modify_mux mux (set_member_tp tp);
       ret (PJ_SUCCESS, Some mux)).

Definition param_is_null (param : option pjmedia_transport_attach_param) : bool :=
  match param with None => true | Some _ => false end.

(** [transport_attach2].  [param] is [None] for a NULL pointer. *)
Definition transport_attach2 (tp : ptr)
           (param : option pjmedia_transport_attach_param) : mx pj_status_t :=
  PJ_ASSERT_RETURN (negb (is_null tp) && negb (param_is_null param)) PJ_EINVAL
  match param with
  | None => fail NullDeref
  | Some prm =>
      (let mux := tp in
       (* Save the callbacks *)
       do m <- load_mux mux;
       do_ pj_lock_acquire (mutex m);
       do_ modify_mux mux (set_rtp_cb (ap_rtp_cb prm));
       do_ modify_mux mux (set_rtcp_cb (ap_rtcp_cb prm));
       do_ modify_mux mux (set_user_data (ap_user_data prm));
       do_ pj_lock_release (mutex m);
       (* Attach self to member transport *)
       let member_param := prm in
       let member_param := set_ap_user_data mux member_param in
       let member_param := set_ap_rtp_cb FnMuxRtp member_param in
       let member_param := set_ap_rtcp_cb FnMuxRtcp member_param in
       do m <- load_mux mux;
       do status <- pjmedia_transport_attach2 (member_tp m) member_param;
       if negb (Z.eqb status PJ_SUCCESS) then
         do_ pj_lock_acquire (mutex m);
         do_ modify_mux mux (set_rtp_cb FnNull);
         do_ modify_mux mux (set_rtcp_cb FnNull);
         do_ modify_mux mux (set_user_data NULL);
         do_ pj_lock_release (mutex m);
         ret status
       else
         do_ modify_mux mux (set_member_tp_attached true);
         ret PJ_SUCCESS)
  end.

(** [transport_detach].  PJ_ASSERT_ON_FAIL(tp, return) returns at once on a
    NULL [tp]; [strm] is unused. *)
Definition transport_detach (tp strm : ptr) : mx unit :=
  if is_null tp then ret tt
  else
    let mux := tp in
    do m <- load_mux mux;
    do_ (if negb (is_null (member_tp m))
         then pjmedia_transport_detach (member_tp m) mux
         else ret tt);
    (* Clear up application infos from transport *)
    do_ pj_lock_acquire (mutex m);
    do_ modify_mux mux (set_rtp_cb FnNull);
    do_ modify_mux mux (set_rtcp_cb FnNull);
    do_ modify_mux mux (set_user_data NULL);
    do_ pj_lock_release (mutex m);
    modify_mux mux (set_member_tp_attached false).

Definition transport_send_rtp (tp : ptr) (pkt : list byte) (size : Z)
  : mx pj_status_t :=
  do m <- load_mux tp;
  pjmedia_transport_send_rtp (member_tp m) pkt size.

Definition transport_send_rtcp2 (tp addr : ptr) (addr_len : Z)
           (pkt : list byte) (size : Z) : mx pj_status_t :=
  do m <- load_mux tp;
  pjmedia_transport_send_rtp (member_tp m) pkt size.

Definition transport_send_rtcp (tp : ptr) (pkt : list byte) (size : Z)
  : mx pj_status_t :=
  transport_send_rtcp2 tp NULL 0 pkt size.

Definition transport_simulate_lost (tp : ptr) (dir pct_lost : Z)
  : mx pj_status_t :=
  PJ_ASSERT_RETURN (negb (is_null tp)) PJ_EINVAL
    (do m <- load_mux tp;
     pjmedia_transport_simulate_lost (member_tp m) dir pct_lost).

Definition transport_destroy (tp : ptr) : mx pj_status_t :=
  PJ_ASSERT_RETURN (negb (is_null tp)) PJ_EINVAL
    (do m <- load_mux tp;
     (* In case mutex is being acquired by other thread *)
     do_ pj_lock_acquire (mutex m);
     do_ pj_lock_release (mutex m);
     do_ pj_lock_destroy (mutex m);
     do_ pj_pool_release (pool m);
     ret PJ_SUCCESS).

(** [mux_rtp_cb]: called by the member transport when a packet arrives on
    its RTP path.  [udata] is the C parameter [user_data] (renamed, the
    field of the decorator has that name); [pkt] holds the bytes of the
    buffer. *)
Definition mux_rtp_cb (udata : ptr) (pkt : list byte) (size : Z) : mx unit :=
  let mux := udata in
  let data := pkt in
  do type <- (if 2 <=? size
              then do b <- read_byte data 1; ret (Z.land b 127)
              else ret 0);
  if (64 <=? type) && (type <? 96) then
    do m <- load_mux mux;
    invoke_cb (rtp_cb m) (user_data m) pkt size
  else
    do m <- load_mux mux;
    invoke_cb (rtcp_cb m) (user_data m) pkt size.

(** [mux_rtcp_cb]: called by the member transport when a packet arrives on
    its RTCP path. *)
Definition mux_rtcp_cb (udata : ptr) (pkt : list byte) (size : Z) : mx unit :=
  let mux := udata in
  do m <- load_mux mux;
  invoke_cb (rtcp_cb m) (user_data m) pkt size.

Definition transport_media_create (tp sdp_pool : ptr) (options : Z)
           (sdp_remote : ptr) (media_index : N) : mx pj_status_t :=
  do m <- load_mux tp;
  pjmedia_transport_media_create (member_tp m) sdp_pool options sdp_remote
                                 media_index.

Definition transport_encode_sdp (tp sdp_pool sdp_local sdp_remote : ptr)
           (media_index : N) : mx pj_status_t :=
  PJ_ASSERT_RETURN (negb (is_null tp) && negb (is_null sdp_pool)
                    && negb (is_null sdp_local)) PJ_EINVAL
    (do m_loc <- load_media_slot sdp_local media_index;
     do m <- load_mux tp;
     do status <- pjmedia_transport_encode_sdp (member_tp m) sdp_pool
                                               sdp_local sdp_remote media_index;
     let a := pjmedia_sdp_attr_create sdp_pool ID_RTCPMUX None in
     do_ pjmedia_sdp_media_add_attr m_loc a;
     ret status).

Definition transport_media_start (tp pool sdp_local sdp_remote : ptr)
           (media_index : N) : mx pj_status_t :=
  PJ_ASSERT_RETURN (negb (is_null tp) && negb (is_null pool)
                    && negb (is_null sdp_local) && negb (is_null sdp_remote))
                   PJ_EINVAL
    (do m <- load_mux tp;
     do status <- pjmedia_transport_media_start (member_tp m) pool
                                                sdp_local sdp_remote media_index;
     ret status).

Definition transport_media_stop (tp : ptr) : mx pj_status_t :=
  PJ_ASSERT_RETURN (negb (is_null tp)) PJ_EINVAL
    (do m <- load_mux tp;
     (* Invoke media_stop() of member tp *)
     do status <- pjmedia_transport_media_stop (member_tp m);
     do_ (if negb (Z.eqb status PJ_SUCCESS)
          then PJ_LOG 4 (op_pool_name ops (pool m))
                      "RTCP-mux failed stop underlying media transport."
          else ret tt);
     ret status).

Definition transport_get_info (tp info : ptr) : mx pj_status_t :=
  do m <- load_mux tp;
  pjmedia_transport_get_info (member_tp m) info.

(** ** Descriptions used in the statements *)

(** The attach parameters that [transport_attach2] builds in its local
    [member_param]: three assignments on a copy of the caller's. *)
Definition shadow_param (tp : ptr) (prm : pjmedia_transport_attach_param)
  : pjmedia_transport_attach_param :=
  set_ap_rtcp_cb FnMuxRtcp (set_ap_rtp_cb FnMuxRtp (set_ap_user_data tp prm)).

(** The three assignments under the guard that save the callbacks, and the
    three that clear them. *)
Definition save_callbacks (prm : pjmedia_transport_attach_param)
           (m : transport_mux) : transport_mux :=
  set_user_data (ap_user_data prm)
    (set_rtcp_cb (ap_rtcp_cb prm) (set_rtp_cb (ap_rtp_cb prm) m)).

Definition clear_callbacks (m : transport_mux) : transport_mux :=
  set_user_data NULL (set_rtcp_cb FnNull (set_rtp_cb FnNull m)).

(** The callback triple of a decorator: all cleared, all set. *)
Definition triple_cleared (m : transport_mux) : Prop :=
  rtp_cb m = FnNull /\ rtcp_cb m = FnNull /\ user_data m = NULL.

Definition triple_valid (m : transport_mux) : Prop :=
  rtp_cb m <> FnNull /\ rtcp_cb m <> FnNull /\ user_data m <> NULL.

(** The invariant of the data model: unattached with the triple cleared,
    or attached with the triple valid. *)
Definition mux_inv (m : transport_mux) : Prop :=
  if member_tp_attached m then triple_valid m else triple_cleared m.

(** Its half about unattached decorators. *)
Definition unattached_cleared (m : transport_mux) : Prop :=
  member_tp_attached m = false -> triple_cleared m.

(** The operations that act on a decorator after its creation. *)
Inductive mux_op : Type :=
| OpAttach (param : option pjmedia_transport_attach_param)
| OpDetach (strm : ptr)
| OpRtp (pkt : list byte) (size : Z)
| OpRtcp (pkt : list byte) (size : Z).

Definition run_op (tp : ptr) (o : mux_op) : mx unit :=
  match o with
  | OpAttach param => do_ transport_attach2 tp param; ret tt
  | OpDetach strm => transport_detach tp strm
  | OpRtp pkt size => mux_rtp_cb tp pkt size
  | OpRtcp pkt size => mux_rtcp_cb tp pkt size
  end.

(** An attach as the attach/detach protocol has it: on a decorator that is
    not attached, with both callbacks and the user data present. *)
Definition attach_in_protocol (o : mux_op) (m : transport_mux) : Prop :=
  match o with
  | OpAttach (Some prm) =>
      member_tp_attached m = false /\
      ap_rtp_cb prm <> FnNull /\ ap_rtcp_cb prm <> FnNull /\
      ap_user_data prm <> NULL
  | _ => True
  end.

(** The number of attributes of a media description with a given name. *)
Definition count_attr (name : string) (md : pjmedia_sdp_media) : nat :=
  length (filter (fun a => attr_name a = name) (attr md)).

End Mux.

(** ** A stub member transport

    The stub of the test scenarios: every operation that has a status
    returns the next one of a script (PJ_SUCCESS when the script is over),
    and no operation touches the session descriptions.  The remaining
    attach fields are one number. *)

Definition stub_env : Type := list pj_status_t.

Definition stub_next (e : stub_env) : pj_status_t * stub_env :=
  match e with
  | [] => (PJ_SUCCESS, [])
  | st :: e' => (st, e')
  end.

Definition stub_ops : @member_ops N stub_env :=
  {| op_type := fun _ _ => 1;
     op_get_info := fun _ _ => stub_next;
     op_attach2 := fun _ _ => stub_next;
     op_detach := fun _ _ e => e;
     op_send_rtp := fun _ _ _ => stub_next;
     op_send_rtcp := fun _ _ _ => stub_next;
     op_send_rtcp2 := fun _ _ _ _ _ => stub_next;
     op_media_create := fun _ _ _ _ _ => stub_next;
     op_encode_sdp := fun _ _ _ _ _ e s => (stub_next e, s);
     op_media_start := fun _ _ _ _ _ => stub_next;
     op_media_stop := fun _ => stub_next;
     op_simulate_lost := fun _ _ _ => stub_next;
     op_lock_create := fun _ => stub_next;
     op_pool_name := fun _ => "mux"%string |}.

(** A failure status for the scripts of the stub: PJ_EBUSY of pjlib, the
    answer of a transport that is already attached. *)
Definition PJ_EBUSY : pj_status_t := 70011.

(** A decorator at address 10 over the member transport at address 20,
    as the constructor leaves it. *)
Definition created_mux : transport_mux :=
  mk_transport_mux "mux" 1 8%N 9%N NULL FnNull FnNull 20%N false.

(** The same decorator after the stream at address 30 attached its
    callbacks [FnUser 1] (RTP) and [FnUser 2] (RTCP). *)
Definition attached_mux : transport_mux :=
  mk_transport_mux "mux" 1 8%N 9%N 30%N (FnUser 1) (FnUser 2) 20%N true.

(** A session with two media lines, at 41 and 42, in an array of sixteen
    slots (the PJMEDIA_MAX_SDP_MEDIA of pjmedia) whose other slots are
    NULL. *)
Definition stub_session : pjmedia_sdp_session :=
  mk_sdp_session 2 ([41%N; 42%N] ++ replicate 14 NULL).

(** That session at address 40, and its two media descriptions. *)
Definition stub_sdp : sdp_heap :=
  mk_sdp_heap {[ 40%N := stub_session ]}
              {[ 41%N := mk_sdp_media [mk_sdp_attr "sendrecv" None];
                 42%N := mk_sdp_media [] ]}.

Definition stub_world (m : transport_mux) (script : stub_env)
  : @world N stub_env :=
  mk_world {[ 10%N := m ]} stub_sdp script [] 50%N.

(** The attach parameters of that stream. *)
Definition stream_param : @pjmedia_transport_attach_param N :=
  mk_attach_param 30%N (FnUser 1) (FnUser 2) 7%N.

(** The bytes of a packet, from their values. *)
Definition bytes_of (l : list N) : list byte :=
  map (fun n => match Byte.of_N n with Some b => b | None => x00 end) l.

(** A sequence of operations on one decorator, each run on the world the
    one before left; a fault ends the sequence. *)
Fixpoint run_ops {Rest Env : Type} (ops : @member_ops Rest Env) (tp : ptr)
         (l : list (@mux_op Rest)) : @mx Rest Env unit :=
  match l with
  | [] => ret tt
  | o :: l' => bind (run_op ops tp o) (fun _ => run_ops ops tp l')
  end.

(** The value of the local [type] of [mux_rtp_cb]: the low seven bits of
    [data[1]] when [size >= 2], zero otherwise; [None] when [size]
    announces two bytes that the buffer does not hold. *)
Definition packet_type (pkt : list byte) (size : Z) : option Z :=
  if 2 <=? size
  then match pkt !! 1%nat with
       | Some b => Some (Z.land (Z.of_N (Byte.to_N b)) 127)
       | None => None
       end
  else Some 0.

(** The test [type >= 64 && type < 96] of [mux_rtp_cb]. *)
Definition is_rtp_type (t : Z) : bool := (64 <=? t) && (t <? 96).

(** The calls that attach, detach and the dispatch routines of the
    decorator at [tp] may make, [member] being its member transport: an
    attach of the member transport with the decorator and its two routines
    in the place of the stream, a detach of the member transport with the
    decorator as token, a call through a callback pointer that is not
    NULL. *)
Definition decorator_event {Rest : Type} (tp member : ptr) (ev : @event Rest)
  : Prop :=
  match ev with
  | EvAttach2 t prm =>
      t = member /\ ap_user_data prm = tp /\
      ap_rtp_cb prm = FnMuxRtp /\ ap_rtcp_cb prm = FnMuxRtcp
  | EvDetach t token => t = member /\ token = tp
  | EvCallback f _ _ _ => f <> FnNull
  | _ => False
  end.

(** The fields of a decorator that are set once, at its construction. *)
Definition same_identity (m m' : transport_mux) : Prop :=
  base_name m' = base_name m /\ base_type m' = base_type m /\
  pool m' = pool m /\ mutex m' = mutex m /\ member_tp m' = member_tp m.

(** * Properties *)

Section MuxFacts.

Context {Rest Env : Type}.
Variable ops : @member_ops Rest Env.

Implicit Types (w : @world Rest Env) (m : transport_mux) (p tp : ptr).

Lemma is_null_false p : p <> NULL -> is_null p = false.
Proof. unfold is_null. intros H. now apply N.eqb_neq. Qed.

Lemma is_null_true p : is_null p = true -> p = NULL.
Proof. unfold is_null. apply N.eqb_eq. Qed.

Lemma fn_is_null_false (f : fnptr) : f <> FnNull -> fn_is_null f = false.
Proof. destruct f; simpl; congruence. Qed.

Lemma load_mux_ok w p m :
  p <> NULL -> muxes w !! p = Some m -> load_mux p w = Ok (m, w).
Proof.
  intros Hp Hm. unfold load_mux. now rewrite (is_null_false _ Hp), Hm.
Qed.

Lemma modify_mux_ok w p m (f : transport_mux -> transport_mux) :
  p <> NULL -> muxes w !! p = Some m ->
  modify_mux p f w = Ok (tt, with_muxes (<[p := f m]> (muxes w)) w).
Proof.
  intros Hp Hm. unfold modify_mux. now rewrite (is_null_false _ Hp), Hm.
Qed.

Lemma invoke_cb_ok w (f : fnptr) p (pkt : list byte) (size : Z) :
  f <> FnNull ->
  invoke_cb f p pkt size w = Ok (tt, emit (EvCallback f p pkt size) w).
Proof. intros Hf. unfold invoke_cb. now rewrite (fn_is_null_false _ Hf). Qed.

(** [transport_attach2] on a live decorator with a member transport, by
    the status the member transport answers. *)
Lemma transport_attach2_run w tp m prm st e :
  tp <> NULL -> muxes w !! tp = Some m -> member_tp m <> NULL ->
  op_attach2 ops (member_tp m) (shadow_param tp prm) (env w) = (st, e) ->
  transport_attach2 ops tp (Some prm) w =
  Ok (st,
      with_muxes
        (<[tp := if Z.eqb st PJ_SUCCESS
                 then set_member_tp_attached true (save_callbacks prm m)
                 else clear_callbacks m]> (muxes w))
        (emit (EvAttach2 (member_tp m) (shadow_param tp prm)) (with_env e w))).
Proof.
  intros Hp Hm Hmem Hop.
  unfold transport_attach2, PJ_ASSERT_RETURN, param_is_null.
  rewrite (is_null_false _ Hp). cbn [negb andb].
  unfold bind, pj_lock_acquire, pj_lock_release, ret.
  rewrite (load_mux_ok _ _ _ Hp Hm).
  rewrite (modify_mux_ok _ _ _ _ Hp Hm).
  repeat (unfold modify_mux at 1; rewrite (is_null_false _ Hp);
          cbn [muxes with_muxes]; rewrite lookup_insert_eq).
  unfold load_mux. rewrite (is_null_false _ Hp).
  cbn [muxes with_muxes]. rewrite lookup_insert_eq.
  unfold pjmedia_transport_attach2, member_call.
  cbn [member_tp set_user_data set_rtcp_cb set_rtp_cb].
  rewrite (is_null_false _ Hmem).
  cbn [env with_muxes with_env].
  fold (shadow_param tp prm). rewrite Hop.
  destruct (Z.eqb st PJ_SUCCESS) eqn:Hst; cbn [negb].
  - apply Z.eqb_eq in Hst. subst st.
    unfold modify_mux. rewrite (is_null_false _ Hp).
    cbn [muxes with_muxes emit with_env]. rewrite lookup_insert_eq.
    unfold with_muxes, emit, with_env. cbn.
    now rewrite !insert_insert_eq.
  - repeat (unfold modify_mux at 1; rewrite (is_null_false _ Hp);
            cbn [muxes with_muxes emit with_env]; rewrite lookup_insert_eq).
    unfold with_muxes, emit, with_env. cbn.
    now rewrite !insert_insert_eq.
Qed.

(** The dispatch of [mux_rtp_cb], by the value of its local [type]. *)
Lemma mux_rtp_cb_by_type w p m (pkt : list byte) (size t : Z) :
  p <> NULL -> muxes w !! p = Some m ->
  rtp_cb m <> FnNull -> rtcp_cb m <> FnNull ->
  (if 2 <=? size
   then match pkt !! 1%nat with
        | Some b => Some (Z.land (Z.of_N (Byte.to_N b)) 127)
        | None => None
        end
   else Some 0) = Some t ->
  mux_rtp_cb p pkt size w =
  Ok (tt, emit (EvCallback (if (64 <=? t) && (t <? 96) then rtp_cb m else rtcp_cb m)
                           (user_data m) pkt size) w).
Proof.
  intros Hp Hm Hrtp Hrtcp Ht. unfold mux_rtp_cb, bind, read_byte.
  destruct (2 <=? size).
  - destruct (pkt !! 1%nat) as [b|]; [|discriminate].
    injection Ht as <-. unfold ret at 1 2. 
    destruct ((64 <=? _) && (_ <? 96));
      rewrite (load_mux_ok _ _ _ Hp Hm); now apply invoke_cb_ok.
  - injection Ht as <-. unfold ret at 1. simpl.
    rewrite (load_mux_ok _ _ _ Hp Hm). now apply invoke_cb_ok.
Qed.

(** C1.  A packet that the member transport delivers on its RTP path goes
    to the RTP callback of the stream when it has at least two bytes and
    the low seven bits of the second one are in [64, 96), and to the RTCP
    callback otherwise, packets of fewer than two bytes included; the
    callback gets the [user_data] of the stream, the bytes and the size as
    they came.  At the edges: 64 and 95 go to RTP, 63 and 96 to RTCP. *)
Theorem mux_rtp_cb_routes w p m (pkt : list byte) (size : Z) :
  p <> NULL -> muxes w !! p = Some m ->
  rtp_cb m <> FnNull -> rtcp_cb m <> FnNull ->
  size <= Z.of_nat (length pkt) ->
  let routed f :=
    mux_rtp_cb p pkt size w
    = Ok (tt, emit (EvCallback f (user_data m) pkt size) w) in
  (size < 2 -> routed (rtcp_cb m)) /\
  (2 <= size ->
   exists b, pkt !! 1%nat = Some b /\
     let t := Z.land (Z.of_N (Byte.to_N b)) 127 in
     (64 <= t < 96 -> routed (rtp_cb m)) /\
     (~ 64 <= t < 96 -> routed (rtcp_cb m)) /\
     (t = 64 -> routed (rtp_cb m)) /\ (t = 95 -> routed (rtp_cb m)) /\
     (t = 63 -> routed (rtcp_cb m)) /\ (t = 96 -> routed (rtcp_cb m))).
Proof.
  intros Hp Hm Hrtp Hrtcp Hbuf routed. subst routed. split.
  - intros Hsz.
    rewrite (mux_rtp_cb_by_type w p m pkt size 0 Hp Hm Hrtp Hrtcp); [reflexivity|].
    destruct (Z.leb_spec 2 size); [lia|reflexivity].
  - intros Hsz.
    destruct (pkt !! 1%nat) as [b|] eqn:Hb.
    2:{ apply lookup_ge_None in Hb. lia. }
    exists b. split; [reflexivity|]. intros t.
    assert (Hgen : mux_rtp_cb p pkt size w =
      Ok (tt, emit (EvCallback (if (64 <=? t) && (t <? 96) then rtp_cb m else rtcp_cb m)
                               (user_data m) pkt size) w)).
    { apply mux_rtp_cb_by_type; auto.
      destruct (Z.leb_spec 2 size); [|lia]. now rewrite Hb. }
    assert (Hin : 64 <= t < 96 -> (64 <=? t) && (t <? 96) = true).
    { intros [H1 H2]. apply andb_true_iff. split; [now apply Z.leb_le|now apply Z.ltb_lt]. }
    assert (Hout : ~ 64 <= t < 96 -> (64 <=? t) && (t <? 96) = false).
    { intros H. apply andb_false_iff.
      destruct (Z.leb_spec 64 t); [|now left].
      destruct (Z.ltb_spec t 96); [lia|now right]. }
    repeat split; intros H; rewrite Hgen.
    + now rewrite Hin.
    + now rewrite Hout.
    + rewrite Hin; [reflexivity|lia].
    + rewrite Hin; [reflexivity|lia].
    + rewrite Hout; [reflexivity|lia].
    + rewrite Hout; [reflexivity|lia].
Qed.

(** C2 (as amended).  When the member transport refuses the attach, the
    three stored values of the stream are cleared, the attached flag and
    every other field are as before the call (so the flag is still false
    on a decorator that was not attached), and the call returns the status
    of the member transport. *)
Theorem transport_attach2_failure w tp m prm st e :
  tp <> NULL -> muxes w !! tp = Some m -> member_tp m <> NULL ->
  op_attach2 ops (member_tp m) (shadow_param tp prm) (env w) = (st, e) ->
  st <> PJ_SUCCESS ->
  exists w' m',
    transport_attach2 ops tp (Some prm) w = Ok (st, w') /\
    muxes w' !! tp = Some m' /\
    rtp_cb m' = FnNull /\ rtcp_cb m' = FnNull /\ user_data m' = NULL /\
    member_tp_attached m' = member_tp_attached m /\
    (member_tp_attached m = false -> member_tp_attached m' = false) /\
    m' = clear_callbacks m.
Proof.
  intros Hp Hm Hmem Hop Hst.
  rewrite (transport_attach2_run w tp m prm st e Hp Hm Hmem Hop).
  apply Z.eqb_neq in Hst. rewrite Hst.
  eexists _, (clear_callbacks m). split; [reflexivity|].
  cbn [muxes with_muxes]. rewrite lookup_insert_eq.
  repeat split; auto.
Qed.

(** C7.  On a successful attach the member transport is attached with the
    parameters of the caller in which [user_data] is the decorator itself
    and the two callbacks are [mux_rtp_cb] and [mux_rtcp_cb]; every other
    field is the caller's. *)
Theorem transport_attach2_forwards w tp m prm e :
  tp <> NULL -> muxes w !! tp = Some m -> member_tp m <> NULL ->
  op_attach2 ops (member_tp m) (shadow_param tp prm) (env w) = (PJ_SUCCESS, e) ->
  exists w' member_param,
    transport_attach2 ops tp (Some prm) w = Ok (PJ_SUCCESS, w') /\
    trace w' = trace w ++ [EvAttach2 (member_tp m) member_param] /\
    (PJ_SUCCESS, env w') = op_attach2 ops (member_tp m) member_param (env w) /\
    ap_user_data member_param = tp /\
    ap_rtp_cb member_param = FnMuxRtp /\
    ap_rtcp_cb member_param = FnMuxRtcp /\
    ap_rest member_param = ap_rest prm /\
    member_param = mk_attach_param tp FnMuxRtp FnMuxRtcp (ap_rest prm).
Proof.
  intros Hp Hm Hmem Hop.
  rewrite (transport_attach2_run w tp m prm PJ_SUCCESS e Hp Hm Hmem Hop).
  eexists _, (shadow_param tp prm). split; [reflexivity|].
  cbn [trace env with_muxes emit with_env]. rewrite Hop.
  repeat split.
Qed.

(** [transport_detach] on a live decorator. *)
Lemma transport_detach_run w tp m strm :
  tp <> NULL -> muxes w !! tp = Some m ->
  transport_detach ops tp strm w =
  Ok (tt,
      with_muxes
        (<[tp := set_member_tp_attached false (clear_callbacks m)]> (muxes w))
        (if is_null (member_tp m) then w
         else emit (EvDetach (member_tp m) tp)
                   (with_env (op_detach ops (member_tp m) tp (env w)) w))).
Proof.
  intros Hp Hm. unfold transport_detach.
  rewrite (is_null_false _ Hp).
  unfold bind, pj_lock_acquire, pj_lock_release, ret.
  rewrite (load_mux_ok _ _ _ Hp Hm).
  unfold pjmedia_transport_detach, member_call.
  destruct (is_null (member_tp m)) eqn:Hmem; cbn [negb].
  - rewrite (modify_mux_ok _ _ _ _ Hp Hm).
    repeat (unfold modify_mux at 1; rewrite (is_null_false _ Hp);
            cbn [muxes with_muxes]; rewrite lookup_insert_eq).
    unfold with_muxes. cbn. now rewrite !insert_insert_eq.
  - repeat (unfold modify_mux at 1; rewrite (is_null_false _ Hp);
            cbn [muxes with_muxes emit with_env];
            rewrite ?Hm, ?lookup_insert_eq).
    unfold with_muxes, emit, with_env. cbn. now rewrite !insert_insert_eq.
Qed.

(** C6.  Detach works on any live decorator, attached or not: when there is
    a member transport it is detached first, with the decorator itself as
    the token; then the three stored values of the stream are cleared and
    the attached flag is false.  On a decorator that was never attached the
    decorator is left exactly as it was. *)
Theorem transport_detach_defined w tp m strm :
  tp <> NULL -> muxes w !! tp = Some m ->
  exists w',
    transport_detach ops tp strm w = Ok (tt, w') /\
    muxes w' = <[tp := set_member_tp_attached false (clear_callbacks m)]> (muxes w) /\
    (exists m', muxes w' !! tp = Some m' /\ triple_cleared m' /\
                member_tp_attached m' = false /\ member_tp m' = member_tp m) /\
    (member_tp m <> NULL ->
       trace w' = trace w ++ [EvDetach (member_tp m) tp] /\
       env w' = op_detach ops (member_tp m) tp (env w)) /\
    (member_tp m = NULL -> trace w' = trace w /\ env w' = env w) /\
    (triple_cleared m -> member_tp_attached m = false -> muxes w' = muxes w).
Proof.
  intros Hp Hm. rewrite (transport_detach_run w tp m strm Hp Hm).
  eexists. split; [reflexivity|]. cbn [muxes with_muxes].
  split; [reflexivity|]. split; [|split; [|split]].
  - eexists. rewrite lookup_insert_eq. split; [reflexivity|].
    repeat split.
  - intros Hmem. rewrite (is_null_false _ Hmem). now cbn.
  - intros Hmem. rewrite Hmem. now cbn.
  - intros (H1 & H2 & H3) H4. apply insert_id. rewrite Hm. f_equal.
    destruct m; cbn in *. now subst.
Qed.

(** A call of the member transport that it answers with [r]. *)
Lemma member_call_ok {A} w p (ev : event) (op : Env -> A * Env) (r : A) e :
  p <> NULL -> op (env w) = (r, e) ->
  member_call p ev op w = Ok (r, emit ev (with_env e w)).
Proof.
  intros Hp Hop. unfold member_call. now rewrite (is_null_false _ Hp), Hop.
Qed.

(** C5.  [transport_send_rtcp] is [transport_send_rtcp2] with a NULL address
    of length zero; that function and [transport_send_rtp] both call the RTP
    send of the member transport with the packet and the size they were
    given, and return what it returns. *)
Theorem send_paths_share_rtp w tp m (addr : ptr) (addr_len : Z)
        (pkt : list byte) (size : Z) :
  tp <> NULL -> muxes w !! tp = Some m ->
  transport_send_rtcp ops tp pkt size w
    = transport_send_rtcp2 ops tp NULL 0 pkt size w /\
  transport_send_rtcp2 ops tp addr addr_len pkt size w
    = pjmedia_transport_send_rtp ops (member_tp m) pkt size w /\
  transport_send_rtp ops tp pkt size w
    = pjmedia_transport_send_rtp ops (member_tp m) pkt size w /\
  (forall st e,
     member_tp m <> NULL ->
     op_send_rtp ops (member_tp m) pkt size (env w) = (st, e) ->
     let after := Ok (st, emit (EvSendRtp (member_tp m) pkt size) (with_env e w)) in
     transport_send_rtp ops tp pkt size w = after /\
     transport_send_rtcp ops tp pkt size w = after /\
     transport_send_rtcp2 ops tp addr addr_len pkt size w = after).
Proof.
  intros Hp Hm.
  assert (H2 : forall a l, transport_send_rtcp2 ops tp a l pkt size w
                           = pjmedia_transport_send_rtp ops (member_tp m) pkt size w).
  { intros a l. unfold transport_send_rtcp2, bind.
    now rewrite (load_mux_ok _ _ _ Hp Hm). }
  assert (H1 : transport_send_rtp ops tp pkt size w
               = pjmedia_transport_send_rtp ops (member_tp m) pkt size w).
  { unfold transport_send_rtp, bind. now rewrite (load_mux_ok _ _ _ Hp Hm). }
  split; [reflexivity|]. split; [apply H2|]. split; [apply H1|].
  intros st e Hmem Hop after. unfold transport_send_rtcp.
  rewrite H1, !H2. unfold pjmedia_transport_send_rtp.
  rewrite (member_call_ok _ _ _ _ st e Hmem Hop). now repeat split.
Qed.

(** C9.  The address and the address length given to
    [transport_send_rtcp2] change nothing: the result is the one for a NULL
    address of length zero, and the only call made is the RTP send of the
    member transport, with the packet and the size alone. *)
Theorem transport_send_rtcp2_ignores_addr w tp (addr : ptr) (addr_len : Z)
        (pkt : list byte) (size : Z) :
  transport_send_rtcp2 ops tp addr addr_len pkt size w
    = transport_send_rtcp2 ops tp NULL 0 pkt size w /\
  (forall m st e,
     tp <> NULL -> muxes w !! tp = Some m -> member_tp m <> NULL ->
     op_send_rtp ops (member_tp m) pkt size (env w) = (st, e) ->
     exists w',
       transport_send_rtcp2 ops tp addr addr_len pkt size w = Ok (st, w') /\
       trace w' = trace w ++ [EvSendRtp (member_tp m) pkt size] /\
       env w' = e /\ muxes w' = muxes w /\ sdp w' = sdp w).
Proof.
  split; [reflexivity|].
  intros m st e Hp Hm Hmem Hop.
  unfold transport_send_rtcp2, bind. rewrite (load_mux_ok _ _ _ Hp Hm).
  unfold pjmedia_transport_send_rtp.
  rewrite (member_call_ok _ _ _ _ st e Hmem Hop).
  eexists. split; [reflexivity|]. now repeat split.
Qed.

(** C4 (as amended).  [transport_media_start], [transport_media_stop] and
    [transport_simulate_lost] return PJ_EINVAL, and do nothing, when a
    required pointer is NULL.  [transport_send_rtp], [transport_send_rtcp],
    [transport_send_rtcp2], [transport_get_info] and
    [transport_media_create] check nothing and dereference the transport
    pointer as it is.  On a live decorator each of the eight calls the
    operation of the member transport with the arguments it was given (the
    RTP send for the three send operations) and returns its status;
    [transport_media_stop] also logs a failure. *)
Theorem forwarding_operations w tp m (pkt : list byte) (size : Z)
        (addr info sdp_pool sdp_local sdp_remote : ptr)
        (addr_len options dir pct_lost : Z) (media_index : N) :
  tp <> NULL -> muxes w !! tp = Some m ->
  (* validation *)
  ((sdp_pool = NULL \/ sdp_local = NULL \/ sdp_remote = NULL ->
    transport_media_start ops tp sdp_pool sdp_local sdp_remote media_index w
      = Ok (PJ_EINVAL, w)) /\
   transport_media_start ops NULL sdp_pool sdp_local sdp_remote media_index w
     = Ok (PJ_EINVAL, w) /\
   transport_media_stop ops NULL w = Ok (PJ_EINVAL, w) /\
   transport_simulate_lost ops NULL dir pct_lost w = Ok (PJ_EINVAL, w)) /\
  (* no validation *)
  (transport_send_rtp ops NULL pkt size w = Fault NullDeref /\
   transport_send_rtcp ops NULL pkt size w = Fault NullDeref /\
   transport_send_rtcp2 ops NULL addr addr_len pkt size w = Fault NullDeref /\
   transport_get_info ops NULL info w = Fault NullDeref /\
   transport_media_create ops NULL sdp_pool options sdp_remote media_index w
     = Fault NullDeref) /\
  (* delegation *)
  (transport_send_rtp ops tp pkt size w
     = pjmedia_transport_send_rtp ops (member_tp m) pkt size w /\
   transport_send_rtcp ops tp pkt size w
     = pjmedia_transport_send_rtp ops (member_tp m) pkt size w /\
   transport_send_rtcp2 ops tp addr addr_len pkt size w
     = pjmedia_transport_send_rtp ops (member_tp m) pkt size w /\
   transport_get_info ops tp info w
     = pjmedia_transport_get_info ops (member_tp m) info w /\
   transport_media_create ops tp sdp_pool options sdp_remote media_index w
     = pjmedia_transport_media_create ops (member_tp m) sdp_pool options
                                      sdp_remote media_index w /\
   (sdp_pool <> NULL -> sdp_local <> NULL -> sdp_remote <> NULL ->
    transport_media_start ops tp sdp_pool sdp_local sdp_remote media_index w
      = pjmedia_transport_media_start ops (member_tp m) sdp_pool sdp_local
                                      sdp_remote media_index w) /\
   transport_simulate_lost ops tp dir pct_lost w
     = pjmedia_transport_simulate_lost ops (member_tp m) dir pct_lost w /\
   (forall st e,
      member_tp m <> NULL -> op_media_stop ops (member_tp m) (env w) = (st, e) ->
      transport_media_stop ops tp w
      = Ok (st,
            let w1 := emit (EvMediaStop (member_tp m)) (with_env e w) in
            if Z.eqb st PJ_SUCCESS then w1
            else emit (EvLog 4 (op_pool_name ops (pool m))
                             "RTCP-mux failed stop underlying media transport.")
                      w1))).
Proof.
  intros Hp Hm. pose proof (is_null_false _ Hp) as Hn.
  pose proof (load_mux_ok _ _ _ Hp Hm) as Hl.
  split; [|split].
  - repeat split.
    intros H. unfold transport_media_start, PJ_ASSERT_RETURN. rewrite Hn.
    destruct H as [-> | [-> | ->]]; cbn [is_null N.eqb NULL negb andb];
      rewrite ?andb_false_r; reflexivity.
  - repeat split.
  - unfold transport_send_rtcp, transport_send_rtp, transport_send_rtcp2,
      transport_get_info, transport_media_create, transport_media_start,
      transport_simulate_lost, transport_media_stop, PJ_ASSERT_RETURN.
    rewrite Hn. cbn [negb andb]. unfold bind at 1 2 3 4 5 6.
    rewrite !Hl. repeat split.
    + intros H1 H2 H3. rewrite !is_null_false by assumption. cbn [negb andb].
      unfold bind. rewrite Hl.
      destruct (pjmedia_transport_media_start _ _ _ _ _ _ _) as [[? ?]|]; reflexivity.
    + unfold bind. now rewrite Hl.
    + intros st e Hmem Hop. unfold bind. rewrite Hl.
      unfold pjmedia_transport_media_stop.
      rewrite (member_call_ok _ _ _ _ st e Hmem Hop).
      destruct (Z.eqb st PJ_SUCCESS); reflexivity.
Qed.

Lemma load_media_slot_ok w (sdp_local : ptr) (idx : N) s (m_loc : ptr) :
  sdp_local <> NULL -> sessions (sdp w) !! sdp_local = Some s ->
  media s !! N.to_nat idx = Some m_loc ->
  load_media_slot sdp_local idx w = Ok (m_loc, w).
Proof.
  intros Hl Hs Hi. unfold load_media_slot.
  now rewrite (is_null_false _ Hl), Hs, Hi.
Qed.

(** [transport_encode_sdp] on a live decorator, for a media line that is
    there and that the member transport leaves in place. *)
Lemma transport_encode_sdp_run w tp m (sdp_pool sdp_local sdp_remote : ptr)
      (idx : N) s (m_loc : ptr) st e h md :
  tp <> NULL -> sdp_pool <> NULL -> sdp_local <> NULL ->
  muxes w !! tp = Some m -> member_tp m <> NULL ->
  sessions (sdp w) !! sdp_local = Some s ->
  media s !! N.to_nat idx = Some m_loc -> m_loc <> NULL ->
  op_encode_sdp ops (member_tp m) sdp_pool sdp_local sdp_remote idx
                (env w) (sdp w) = (st, e, h) ->
  medias h !! m_loc = Some md ->
  transport_encode_sdp ops tp sdp_pool sdp_local sdp_remote idx w =
  Ok (st,
      mk_world (muxes w)
        (mk_sdp_heap (sessions h)
           (<[m_loc := mk_sdp_media (attr md ++ [mk_sdp_attr ID_RTCPMUX None])]>
              (medias h)))
        e
        (trace w ++ [EvEncodeSdp (member_tp m) sdp_pool sdp_local sdp_remote idx])
        (brk w)).
Proof.
  intros Hp Hpool Hl Hm Hmem Hs Hi Hloc Hop Hmd.
  unfold transport_encode_sdp, PJ_ASSERT_RETURN.
  rewrite !is_null_false by assumption. cbn [negb andb].
  unfold bind. rewrite (load_media_slot_ok _ _ _ _ _ Hl Hs Hi).
  rewrite (load_mux_ok _ _ _ Hp Hm).
  unfold pjmedia_transport_encode_sdp. rewrite (is_null_false _ Hmem), Hop.
  unfold pjmedia_sdp_media_add_attr. rewrite (is_null_false _ Hloc).
  cbn [sdp emit with_sdp with_env medias]. rewrite Hmd.
  reflexivity.
Qed.

Lemma count_attr_add (name : string) md (a : pjmedia_sdp_attr) :
  attr_name a = name ->
  count_attr name (mk_sdp_media (attr md ++ [a])) = S (count_attr name md).
Proof.
  intros Ha. unfold count_attr. cbn [attr].
  rewrite filter_app, length_app. cbn.
  destruct (decide (attr_name a = name)); [cbn; lia|contradiction].
Qed.

(** C3.  With a NULL transport, pool or local session,
    [transport_encode_sdp] returns PJ_EINVAL.  Otherwise it lets the member
    transport encode first, then appends one attribute rtcp-mux without a
    value to the media description at [media_index], whatever the member
    transport answered and whatever attributes are already there, and
    returns the status of the member transport.  Two calls append two. *)
Theorem transport_encode_sdp_adds_rtcp_mux
        w tp m (sdp_pool sdp_local sdp_remote : ptr)
        (idx : N) s (m_loc : ptr) st e h md :
  tp <> NULL -> sdp_pool <> NULL -> sdp_local <> NULL ->
  muxes w !! tp = Some m -> member_tp m <> NULL ->
  sessions (sdp w) !! sdp_local = Some s ->
  media s !! N.to_nat idx = Some m_loc -> m_loc <> NULL ->
  op_encode_sdp ops (member_tp m) sdp_pool sdp_local sdp_remote idx
                (env w) (sdp w) = (st, e, h) ->
  medias h !! m_loc = Some md ->
  let rtcp_mux := mk_sdp_attr "rtcp-mux" None in
  (* the call *)
  (exists w' md',
     transport_encode_sdp ops tp sdp_pool sdp_local sdp_remote idx w = Ok (st, w') /\
     trace w' = trace w ++ [EvEncodeSdp (member_tp m) sdp_pool sdp_local sdp_remote idx] /\
     env w' = e /\
     medias (sdp w') !! m_loc = Some md' /\
     attr md' = attr md ++ [rtcp_mux] /\
     count_attr "rtcp-mux" md' = S (count_attr "rtcp-mux" md) /\
     (forall q, q <> m_loc -> medias (sdp w') !! q = medias h !! q) /\
     sessions (sdp w') = sessions h) /\
  (* two calls, over a member transport that leaves the SDP alone *)
  ((forall e0 h0, snd (op_encode_sdp ops (member_tp m) sdp_pool sdp_local
                                     sdp_remote idx e0 h0) = h0) ->
   exists w1 st2 w2 md2,
     transport_encode_sdp ops tp sdp_pool sdp_local sdp_remote idx w = Ok (st, w1) /\
     transport_encode_sdp ops tp sdp_pool sdp_local sdp_remote idx w1 = Ok (st2, w2) /\
     st2 = fst (fst (op_encode_sdp ops (member_tp m) sdp_pool sdp_local
                                   sdp_remote idx e (sdp w1))) /\
     medias (sdp w2) !! m_loc = Some md2 /\
     attr md2 = attr md ++ [rtcp_mux; rtcp_mux] /\
     medias (sdp w) !! m_loc = Some md) /\
  (* absent arguments *)
  (forall tp' pool' local',
     tp' = NULL \/ pool' = NULL \/ local' = NULL ->
     transport_encode_sdp ops tp' pool' local' sdp_remote idx w = Ok (PJ_EINVAL, w)).
Proof.
  intros Hp Hpool Hl Hm Hmem Hs Hi Hloc Hop Hmd rtcp_mux.
  pose proof (transport_encode_sdp_run w tp m sdp_pool sdp_local sdp_remote idx
                s m_loc st e h md Hp Hpool Hl Hm Hmem Hs Hi Hloc Hop Hmd) as Hrun.
  split; [|split].
  - rewrite Hrun. eexists _, _. split; [reflexivity|].
    cbn [trace env sdp medias sessions]. rewrite lookup_insert_eq.
    repeat split.
    + now apply count_attr_add.
    + intros q Hq. now apply lookup_insert_ne.
  - intros Hframe.
    assert (Hh : h = sdp w).
    { pose proof (Hframe (env w) (sdp w)) as H. now rewrite Hop in H. }
    subst h.
    set (w1 := mk_world (muxes w)
                 (mk_sdp_heap (sessions (sdp w))
                    (<[m_loc := mk_sdp_media (attr md ++ [mk_sdp_attr ID_RTCPMUX None])]>
                       (medias (sdp w))))
                 e
                 (trace w ++ [EvEncodeSdp (member_tp m) sdp_pool sdp_local sdp_remote idx])
                 (brk w)) in *.
    destruct (op_encode_sdp ops (member_tp m) sdp_pool sdp_local sdp_remote idx
                            e (sdp w1)) as [[st2 e2] h2] eqn:Hop2.
    assert (Hh2 : h2 = sdp w1).
    { pose proof (Hframe e (sdp w1)) as H. now rewrite Hop2 in H. }
    subst h2.
    assert (Hrun2 := transport_encode_sdp_run w1 tp m sdp_pool sdp_local sdp_remote
                       idx s m_loc st2 e2 (sdp w1)
                       (mk_sdp_media (attr md ++ [mk_sdp_attr ID_RTCPMUX None]))
                       Hp Hpool Hl Hm Hmem Hs Hi Hloc Hop2).
    assert (Hmd1 : medias (sdp w1) !! m_loc
                   = Some (mk_sdp_media (attr md ++ [mk_sdp_attr ID_RTCPMUX None]))).
    { subst w1. cbn [sdp medias]. now rewrite lookup_insert_eq. }
    specialize (Hrun2 Hmd1).
    eexists w1, st2, _, _. split; [exact Hrun|]. split; [exact Hrun2|].
    split; [now rewrite Hop2|]. cbn [sdp medias]. rewrite lookup_insert_eq.
    split; [reflexivity|]. cbn [attr]. split; [|assumption].
    now rewrite <- app_assoc.
  - intros tp' pool' local' H.
    unfold transport_encode_sdp, PJ_ASSERT_RETURN.
    destruct H as [-> | [-> | ->]]; cbn [is_null N.eqb NULL negb andb];
      rewrite ?andb_false_r; reflexivity.
Qed.

(** C10 (as amended).  [transport_encode_sdp] reads
    [sdp_local->media[media_index]] without looking at [media_count], and
    before it touches the decorator or the member transport.  The read is
    inside the array for every index below the capacity of the array,
    whatever the number of media lines, and outside it exactly from the
    capacity on, where the call faults before anything else is done.  For
    an index inside the array the member transport is called and the
    attribute is then added through the pointer that was read before the
    call: when the slot holds NULL the call faults on that pointer, after
    the member transport was called. *)
Theorem transport_encode_sdp_index w (tp sdp_pool sdp_local sdp_remote : ptr)
        (idx : N) s :
  tp <> NULL -> sdp_pool <> NULL -> sdp_local <> NULL ->
  sessions (sdp w) !! sdp_local = Some s ->
  let call := transport_encode_sdp ops tp sdp_pool sdp_local sdp_remote idx w in
  let rtcp_mux := mk_sdp_attr ID_RTCPMUX None in
  load_media_slot (Rest:=Rest) sdp_local idx w
    = match media s !! N.to_nat idx with
      | Some m_loc => Ok (m_loc, w)
      | None => Fault OutOfBounds
      end /\
  ((N.to_nat idx < length (media s))%nat ->
   exists m_loc, media s !! N.to_nat idx = Some m_loc /\
                 load_media_slot (Rest:=Rest) sdp_local idx w = Ok (m_loc, w) /\
                 call <> Fault OutOfBounds) /\
  (call = Fault OutOfBounds <-> (length (media s) <= N.to_nat idx)%nat) /\
  (forall m m_loc,
     media s !! N.to_nat idx = Some m_loc ->
     muxes w !! tp = Some m -> member_tp m <> NULL ->
     exists st w1,
       pjmedia_transport_encode_sdp ops (member_tp m) sdp_pool sdp_local
                                    sdp_remote idx w = Ok (st, w1) /\
       trace w1 = trace w ++ [EvEncodeSdp (member_tp m) sdp_pool sdp_local
                                          sdp_remote idx] /\
       call = bind (pjmedia_sdp_media_add_attr m_loc rtcp_mux)
                   (fun _ => ret st) w1 /\
       (m_loc = NULL -> call = Fault NullDeref)).
Proof.
  intros Hp Hpool Hl Hs call rtcp_mux. subst call rtcp_mux.
  assert (Hread : load_media_slot (Rest:=Rest) sdp_local idx w
                  = match media s !! N.to_nat idx with
                    | Some m_loc => Ok (m_loc, w)
                    | None => Fault OutOfBounds
                    end).
  { unfold load_media_slot. now rewrite (is_null_false _ Hl), Hs. }
  assert (Hstart : transport_encode_sdp ops tp sdp_pool sdp_local sdp_remote idx w
                   = bind (load_media_slot sdp_local idx)
                       (fun m_loc =>
                          bind (load_mux tp)
                            (fun m =>
                               bind (pjmedia_transport_encode_sdp ops (member_tp m)
                                       sdp_pool sdp_local sdp_remote idx)
                                 (fun status =>
                                    bind (pjmedia_sdp_media_add_attr m_loc
                                            (mk_sdp_attr ID_RTCPMUX None))
                                         (fun _ => ret status)))) w).
  { unfold transport_encode_sdp, PJ_ASSERT_RETURN.
    rewrite !is_null_false by assumption. reflexivity. }
  assert (Hge : (length (media s) <= N.to_nat idx)%nat ->
                transport_encode_sdp ops tp sdp_pool sdp_local sdp_remote idx w
                = Fault OutOfBounds).
  { intros Hlen. rewrite Hstart. unfold bind at 1. rewrite Hread.
    now rewrite (proj2 (lookup_ge_None (media s) (N.to_nat idx)) Hlen). }
  assert (Hlt : (N.to_nat idx < length (media s))%nat ->
                exists m_loc, media s !! N.to_nat idx = Some m_loc /\
                  load_media_slot (Rest:=Rest) sdp_local idx w = Ok (m_loc, w) /\
                  transport_encode_sdp ops tp sdp_pool sdp_local sdp_remote idx w
                  <> Fault OutOfBounds).
  { intros Hlen.
    destruct (lookup_lt_is_Some_2 (media s) (N.to_nat idx) Hlen) as [m_loc Hi].
    exists m_loc. split; [exact Hi|]. rewrite Hread, Hi. split; [reflexivity|].
    rewrite Hstart. unfold bind. rewrite Hread, Hi.
    unfold load_mux. rewrite (is_null_false _ Hp).
    destruct (muxes w !! tp) as [m|]; [|discriminate].
    unfold pjmedia_transport_encode_sdp.
    destruct (is_null (member_tp m)); [discriminate|].
    destruct (op_encode_sdp _ _ _ _ _ _ _ _) as [[st e] h].
    unfold pjmedia_sdp_media_add_attr.
    destruct (is_null m_loc); [discriminate|].
    cbn [sdp emit with_sdp with_env medias].
    destruct (medias h !! m_loc); discriminate. }
  split; [exact Hread|]. split; [exact Hlt|]. split.
  - split; [|exact Hge].
    intros Hf.
    destruct (Nat.le_gt_cases (length (media s)) (N.to_nat idx)) as [H|H];
      [exact H|].
    destruct (Hlt H) as (? & _ & _ & Hne). contradiction.
  - intros m m_loc Hi Hm Hmem.
    destruct (op_encode_sdp ops (member_tp m) sdp_pool sdp_local sdp_remote idx
                            (env w) (sdp w)) as [[st e] h] eqn:Hop.
    assert (Hcall : pjmedia_transport_encode_sdp ops (member_tp m) sdp_pool
                      sdp_local sdp_remote idx w
                    = Ok (st, emit (EvEncodeSdp (member_tp m) sdp_pool sdp_local
                                                sdp_remote idx)
                                   (with_sdp h (with_env e w)))).
    { unfold pjmedia_transport_encode_sdp.
      now rewrite (is_null_false _ Hmem), Hop. }
    eexists st, _. split; [exact Hcall|]. split; [reflexivity|].
    assert (Hrest : transport_encode_sdp ops tp sdp_pool sdp_local sdp_remote idx w
                    = bind (pjmedia_sdp_media_add_attr m_loc
                              (mk_sdp_attr ID_RTCPMUX None))
                           (fun _ => ret st)
                           (emit (EvEncodeSdp (member_tp m) sdp_pool sdp_local
                                              sdp_remote idx)
                                 (with_sdp h (with_env e w)))).
    { rewrite Hstart. unfold bind at 1. rewrite Hread, Hi.
      unfold bind at 1. rewrite (load_mux_ok _ _ _ Hp Hm).
      unfold bind at 1. now rewrite Hcall. }
    split; [exact Hrest|].
    intros ->. rewrite Hrest. reflexivity.
Qed.

Lemma is_null_succ (a : N) : is_null (N.succ a) = false.
Proof. apply is_null_false. unfold NULL. lia. Qed.

(** The constructor always returns; what it stores through [p_tp] is a new
    decorator over [tp], not attached, with no callback. *)
Lemma pjmedia_transport_mux_create_returns w (endpt tp p_tp : ptr) :
  exists r w',
    pjmedia_transport_mux_create ops endpt tp p_tp w = Ok (r, w') /\
    forall p, snd r = Some p ->
      fst r = PJ_SUCCESS /\ p <> NULL /\
      exists m', muxes w' !! p = Some m' /\
                 triple_cleared m' /\ member_tp_attached m' = false /\
                 member_tp m' = tp.
Proof.
  unfold pjmedia_transport_mux_create, PJ_ASSERT_RETURN.
  destruct (negb (is_null endpt) && negb (is_null tp) && negb (is_null p_tp))
    eqn:Hargs.
  2:{ eexists _, _. split; [reflexivity|]. cbn. discriminate. }
  apply andb_true_iff in Hargs as [Hargs _].
  apply andb_true_iff in Hargs as [_ Htp].
  unfold bind, pjmedia_endpt_create_pool, PJ_POOL_ZALLOC_T, bind, fresh_addr.
  cbn [brk with_brk muxes with_muxes].
  unfold modify_mux at 1. rewrite is_null_succ.
  cbn [muxes with_muxes]. rewrite lookup_insert_eq.
  unfold pj_lock_create_recursive_mutex.
  cbn [env with_muxes with_brk].
  destruct (op_lock_create ops _ (env w)) as [st e].
  destruct (Z.eqb st PJ_SUCCESS) eqn:Hst.
  - unfold bind, fresh_addr, ret. cbn [fst snd]. rewrite Hst. cbn [negb].
    rewrite Htp.
    repeat (unfold modify_mux at 1; rewrite is_null_succ;
            cbn [muxes with_muxes with_env with_brk brk env];
            rewrite lookup_insert_eq).
    eexists _, _. split; [reflexivity|].
    intros p Hp. cbn [fst snd] in *. injection Hp as <-.
    split; [reflexivity|]. split; [unfold NULL; lia|].
    cbn [muxes with_muxes]. rewrite lookup_insert_eq.
    eexists. split; [reflexivity|]. now repeat split.
  - cbn [fst snd]. rewrite Hst. cbn [negb]. unfold pj_pool_release, ret.
    eexists _, _. split; [reflexivity|]. cbn. discriminate.
Qed.

(** The dispatch routines leave the decorators as they are. *)
Lemma mux_rtp_cb_muxes w w' p (pkt : list byte) (size : Z) :
  mux_rtp_cb p pkt size w = Ok (tt, w') -> muxes w' = muxes w.
Proof.
  unfold mux_rtp_cb, bind, read_byte, load_mux, invoke_cb, ret, fail.
  destruct (2 <=? size); [destruct (pkt !! 1%nat)|];
    try discriminate;
    destruct ((64 <=? _) && (_ <? 96));
    destruct (is_null p); try discriminate;
    destruct (muxes w !! p) as [m|]; try discriminate;
    destruct (fn_is_null _); try discriminate;
    now intros [= <-].
Qed.

Lemma mux_rtcp_cb_muxes w w' p (pkt : list byte) (size : Z) :
  mux_rtcp_cb p pkt size w = Ok (tt, w') -> muxes w' = muxes w.
Proof.
  unfold mux_rtcp_cb, bind, load_mux, invoke_cb.
  destruct (is_null p); try discriminate.
  destruct (muxes w !! p) as [m|]; try discriminate.
  destruct (fn_is_null _); try discriminate.
  now intros [= <-].
Qed.

(** What an operation that returns leaves at the address of the decorator. *)
Lemma run_op_result w w' tp m (o : mux_op) :
  muxes w !! tp = Some m -> run_op ops tp o w = Ok (tt, w') ->
  muxes w' !! tp = Some m \/
  (exists strm, o = OpDetach strm /\
     muxes w' !! tp = Some (set_member_tp_attached false (clear_callbacks m))) \/
  (exists prm, o = OpAttach (Some prm) /\
     (muxes w' !! tp = Some (set_member_tp_attached true (save_callbacks prm m)) \/
      muxes w' !! tp = Some (clear_callbacks m))).
Proof.
  intros Hm Hrun. destruct o as [[prm|]|strm|pkt size|pkt size]; cbn [run_op] in Hrun.
  - destruct (is_null tp) eqn:Hn.
    + unfold bind, transport_attach2, PJ_ASSERT_RETURN, ret in Hrun.
      rewrite Hn in Hrun. cbn in Hrun. injection Hrun as <-. now left.
    + assert (Hp : tp <> NULL) by (intros ->; discriminate).
      destruct (is_null (member_tp m)) eqn:Hmem.
      * exfalso. revert Hrun.
        unfold bind, transport_attach2, PJ_ASSERT_RETURN, param_is_null.
        rewrite Hn. cbn [negb andb].
        unfold bind, pj_lock_acquire, pj_lock_release, ret.
        rewrite (load_mux_ok _ _ _ Hp Hm), (modify_mux_ok _ _ _ _ Hp Hm).
        repeat (unfold modify_mux at 1; rewrite Hn;
                cbn [muxes with_muxes]; rewrite lookup_insert_eq).
        unfold load_mux. rewrite Hn. cbn [muxes with_muxes].
        rewrite lookup_insert_eq.
        unfold pjmedia_transport_attach2, member_call.
        cbn [member_tp set_user_data set_rtcp_cb set_rtp_cb].
        rewrite Hmem. discriminate.
      * assert (Hmem' : member_tp m <> NULL) by (intros H; rewrite H in Hmem; discriminate).
        destruct (op_attach2 ops (member_tp m) (shadow_param tp prm) (env w))
          as [st e] eqn:Hop.
        unfold bind in Hrun.
        rewrite (transport_attach2_run w tp m prm st e Hp Hm Hmem' Hop) in Hrun.
        unfold ret in Hrun. injection Hrun as <-.
        right. right. exists prm. split; [reflexivity|].
        cbn [muxes with_muxes]. rewrite lookup_insert_eq.
        destruct (Z.eqb st PJ_SUCCESS); [now left|now right].
  - unfold bind, transport_attach2, PJ_ASSERT_RETURN, param_is_null, ret in Hrun.
    rewrite andb_false_r in Hrun. injection Hrun as <-. now left.
  - destruct (is_null tp) eqn:Hn.
    + unfold transport_detach, ret in Hrun. rewrite Hn in Hrun.
      injection Hrun as <-. now left.
    + assert (Hp : tp <> NULL) by (intros ->; discriminate).
      rewrite (transport_detach_run w tp m strm Hp Hm) in Hrun.
      injection Hrun as <-. right. left. exists strm. split; [reflexivity|].
      cbn [muxes with_muxes]. now rewrite lookup_insert_eq.
  - left. now rewrite (mux_rtp_cb_muxes _ _ _ _ _ Hrun).
  - left. now rewrite (mux_rtcp_cb_muxes _ _ _ _ _ Hrun).
Qed.

(** C8 (as amended).  A decorator that is not attached has its three stored
    values cleared: the constructor makes it so and attach, detach and the
    two dispatch routines keep it so.  The full invariant (attached with
    the three values present, or not attached with the three cleared) is
    made by the constructor and kept by detach, by the dispatch routines,
    and by an attach made on a decorator that is not attached with both
    callbacks and the user data present.  Attach and detach return on every
    live decorator with a member transport. *)
Theorem mux_invariant_preserved :
  (forall w (endpt tp p_tp : ptr),
     exists r w',
       pjmedia_transport_mux_create ops endpt tp p_tp w = Ok (r, w') /\
       forall p, snd r = Some p ->
         exists m', muxes w' !! p = Some m' /\ mux_inv m' /\ unattached_cleared m') /\
  (forall w w' tp m (o : mux_op),
     muxes w !! tp = Some m -> run_op ops tp o w = Ok (tt, w') ->
     exists m', muxes w' !! tp = Some m' /\
       (unattached_cleared m -> unattached_cleared m') /\
       (mux_inv m -> attach_in_protocol o m -> mux_inv m')) /\
  (forall w tp m prm strm,
     tp <> NULL -> muxes w !! tp = Some m -> member_tp m <> NULL ->
     (exists w', run_op ops tp (OpAttach (Some prm)) w = Ok (tt, w')) /\
     (exists w', run_op ops tp (OpDetach strm) w = Ok (tt, w'))).
Proof.
  split; [|split].
  - intros w endpt tp p_tp.
    destruct (pjmedia_transport_mux_create_returns w endpt tp p_tp)
      as (r & w' & Hrun & Hres).
    exists r, w'. split; [exact Hrun|]. intros p Hp.
    destruct (Hres p Hp) as (_ & _ & m' & Hm' & Hclr & Hatt & _).
    exists m'. split; [exact Hm'|]. split.
    + unfold mux_inv. now rewrite Hatt.
    + now intros _.
  - intros w w' tp m o Hm Hrun.
    destruct (run_op_result w w' tp m o Hm Hrun)
      as [H | [(strm & -> & H) | (prm & -> & [H | H])]];
      eexists; (split; [exact H|]).
    + tauto.
    + split; [intros _ _|intros _ _; unfold mux_inv; cbn]; now repeat split.
    + split; [intros _; discriminate|].
      intros _ (Hatt & H1 & H2 & H3). unfold mux_inv. cbn. now repeat split.
    + split; [intros _ _; now repeat split|].
      intros _ (Hatt & _). unfold mux_inv. cbn. rewrite Hatt. now repeat split.
  - intros w tp m prm strm Hp Hm Hmem. split.
    + destruct (op_attach2 ops (member_tp m) (shadow_param tp prm) (env w))
        as [st e] eqn:Hop.
      cbn [run_op]. unfold bind.
      rewrite (transport_attach2_run w tp m prm st e Hp Hm Hmem Hop).
      eexists. reflexivity.
    + cbn [run_op]. rewrite (transport_detach_run w tp m strm Hp Hm).
      eexists. reflexivity.
Qed.

End MuxFacts.

(** * The statements at the stub transport *)

Lemma mux_rtp_cb_routes_witness :
  let w := stub_world attached_mux [] in
  let pkt := bytes_of [128; 72]%N in
  mux_rtp_cb 10%N pkt 2 w = Ok (tt, emit (EvCallback (FnUser 1) 30%N pkt 2) w) /\
  mux_rtp_cb 10%N [] 0 w = Ok (tt, emit (EvCallback (FnUser 2) 30%N [] 0) w).
Proof.
  intros w pkt.
  assert (Hp : 10%N <> NULL) by (unfold NULL; lia).
  assert (Hm : muxes w !! 10%N = Some attached_mux) by reflexivity.
  assert (Hrtp : rtp_cb attached_mux <> FnNull) by (simpl; congruence).
  assert (Hrtcp : rtcp_cb attached_mux <> FnNull) by (simpl; congruence).
  assert (Hbuf : 2 <= Z.of_nat (length pkt)) by (simpl; lia).
  assert (Hbuf0 : 0 <= Z.of_nat (@length byte [])) by (simpl; lia).
  split.
  - destruct (mux_rtp_cb_routes w 10%N attached_mux pkt 2 Hp Hm Hrtp Hrtcp Hbuf)
      as [_ H].
    destruct H as (b & Hb & Hin & _); [lia|].
    vm_compute in Hb. injection Hb as <-. apply Hin. vm_compute.
    split; [discriminate|reflexivity].
  - destruct (mux_rtp_cb_routes w 10%N attached_mux [] 0 Hp Hm Hrtp Hrtcp Hbuf0)
      as [H _].
    apply H. lia.
Defined.

Lemma transport_attach2_failure_witness :
  exists w' m',
    transport_attach2 stub_ops 10%N (Some stream_param)
                      (stub_world created_mux [PJ_EBUSY]) = Ok (PJ_EBUSY, w') /\
    muxes w' !! 10%N = Some m' /\
    rtp_cb m' = FnNull /\ rtcp_cb m' = FnNull /\ user_data m' = NULL /\
    member_tp_attached m' = member_tp_attached created_mux /\
    (member_tp_attached created_mux = false -> member_tp_attached m' = false) /\
    m' = clear_callbacks created_mux.
Proof.
  apply (transport_attach2_failure stub_ops (stub_world created_mux [PJ_EBUSY])
           10%N created_mux stream_param PJ_EBUSY []).
  - unfold NULL; lia.
  - reflexivity.
  - simpl. unfold NULL; lia.
  - reflexivity.
  - unfold PJ_EBUSY, PJ_SUCCESS. lia.
Defined.

(** C2, as stated, fails: a second attach on an attached decorator, which
    the member transport refuses, clears the callbacks and leaves the
    attached flag true. *)
Lemma transport_attach2_failure_flag_stays_true :
  exists w' m',
    op_attach2 stub_ops 20%N (shadow_param 10%N stream_param) [PJ_EBUSY]
      = (PJ_EBUSY, []) /\
    PJ_EBUSY <> PJ_SUCCESS /\
    transport_attach2 stub_ops 10%N (Some stream_param)
                      (stub_world attached_mux [PJ_EBUSY]) = Ok (PJ_EBUSY, w') /\
    muxes w' !! 10%N = Some m' /\
    triple_cleared m' /\
    member_tp_attached m' = true /\ member_tp_attached m' <> false.
Proof.
  eexists _, _. split; [reflexivity|]. split; [unfold PJ_EBUSY, PJ_SUCCESS; lia|].
  split; [vm_compute; reflexivity|]. split; [vm_compute; reflexivity|].
  repeat split. discriminate.
Defined.

Lemma transport_attach2_forwards_witness :
  exists w' member_param,
    transport_attach2 stub_ops 10%N (Some stream_param)
                      (stub_world created_mux []) = Ok (PJ_SUCCESS, w') /\
    trace w' = [EvAttach2 20%N member_param] /\
    member_param = mk_attach_param 10%N FnMuxRtp FnMuxRtcp 7%N.
Proof.
  destruct (transport_attach2_forwards stub_ops (stub_world created_mux [])
              10%N created_mux stream_param [])
    as (w' & mp & Hrun & Htr & _ & _ & _ & _ & _ & Hmp).
  - unfold NULL; lia.
  - reflexivity.
  - simpl. unfold NULL; lia.
  - reflexivity.
  - exists w', mp. split; [exact Hrun|]. split; [exact Htr|exact Hmp].
Defined.

Lemma transport_detach_defined_witness :
  exists w',
    transport_detach stub_ops 10%N 30%N (stub_world created_mux []) = Ok (tt, w') /\
    trace w' = [EvDetach 20%N 10%N] /\
    muxes w' = muxes (stub_world created_mux []).
Proof.
  destruct (transport_detach_defined stub_ops (stub_world created_mux [])
              10%N created_mux 30%N)
    as (w' & Hrun & _ & _ & Hfw & _ & Hnoop).
  - unfold NULL; lia.
  - reflexivity.
  - exists w'. split; [exact Hrun|]. split.
    + apply Hfw. simpl. unfold NULL; lia.
    + apply Hnoop; [now repeat split|reflexivity].
Defined.

Lemma transport_encode_sdp_adds_rtcp_mux_witness :
  let w := stub_world created_mux [PJ_EBUSY; PJ_SUCCESS] in
  let rtcp_mux := mk_sdp_attr "rtcp-mux" None in
  exists w1 st2 w2 md2,
    transport_encode_sdp stub_ops 10%N 8%N 40%N NULL 0%N w = Ok (PJ_EBUSY, w1) /\
    transport_encode_sdp stub_ops 10%N 8%N 40%N NULL 0%N w1 = Ok (st2, w2) /\
    medias (sdp w2) !! 41%N = Some md2 /\
    attr md2 = [mk_sdp_attr "sendrecv" None] ++ [rtcp_mux; rtcp_mux].
Proof.
  intros w rtcp_mux.
  destruct (transport_encode_sdp_adds_rtcp_mux stub_ops w 10%N created_mux
              8%N 40%N NULL 0%N stub_session 41%N
              PJ_EBUSY [PJ_SUCCESS] stub_sdp
              (mk_sdp_media [mk_sdp_attr "sendrecv" None]))
    as (_ & Htwice & _).
  - unfold NULL; lia.
  - unfold NULL; lia.
  - unfold NULL; lia.
  - reflexivity.
  - simpl. unfold NULL; lia.
  - reflexivity.
  - reflexivity.
  - unfold NULL; lia.
  - reflexivity.
  - reflexivity.
  - destruct Htwice as (w1 & st2 & w2 & md2 & H1 & H2 & _ & H3 & H4 & _).
    + intros e0 h0. reflexivity.
    + exists w1, st2, w2, md2. now repeat split.
Defined.

Lemma forwarding_operations_witness :
  let w := stub_world created_mux [PJ_EBUSY] in
  transport_media_start stub_ops 10%N 8%N 40%N NULL 0%N w = Ok (PJ_EINVAL, w) /\
  transport_get_info stub_ops 10%N 5%N w
    = pjmedia_transport_get_info stub_ops 20%N 5%N w /\
  transport_media_stop stub_ops 10%N w
    = Ok (PJ_EBUSY,
          emit (EvLog 4 "mux" "RTCP-mux failed stop underlying media transport.")
               (emit (EvMediaStop 20%N) (with_env [] w))).
Proof.
  intros w.
  destruct (forwarding_operations stub_ops w 10%N created_mux (bytes_of [128; 72]%N) 2
              NULL 5%N 8%N 40%N NULL 0 0 0 0 0%N)
    as ((Hstart & _) & _ & (_ & _ & _ & Hinfo & _ & _ & _ & Hstop)).
  - unfold NULL; lia.
  - reflexivity.
  - split; [apply Hstart; right; right; reflexivity|].
    split; [exact Hinfo|].
    apply (Hstop PJ_EBUSY []); [simpl; unfold NULL; lia|reflexivity].
Defined.

(** C4, as stated, fails: [transport_send_rtp] and [transport_get_info] do
    not answer PJ_EINVAL to a NULL transport, they dereference it. *)
Lemma send_and_info_do_not_validate :
  let w := stub_world created_mux [] in
  let pkt := bytes_of [128; 72]%N in
  transport_send_rtp stub_ops NULL pkt 2 w = Fault NullDeref /\
  transport_send_rtp stub_ops NULL pkt 2 w <> Ok (PJ_EINVAL, w) /\
  transport_get_info stub_ops NULL 5%N w = Fault NullDeref /\
  transport_get_info stub_ops NULL 5%N w <> Ok (PJ_EINVAL, w).
Proof.
  intros w pkt. repeat split; try reflexivity; vm_compute; discriminate.
Defined.

Lemma send_paths_share_rtp_witness :
  let w := stub_world attached_mux [] in
  let pkt := bytes_of [129; 200; 0; 1]%N in
  let after := Ok (PJ_SUCCESS, emit (EvSendRtp 20%N pkt 4) (with_env [] w)) in
  transport_send_rtp stub_ops 10%N pkt 4 w = after /\
  transport_send_rtcp stub_ops 10%N pkt 4 w = after /\
  transport_send_rtcp2 stub_ops 10%N 77%N 16 pkt 4 w = after.
Proof.
  intros w pkt.
  destruct (send_paths_share_rtp stub_ops w 10%N attached_mux 77%N 16 pkt 4)
    as (_ & _ & _ & H).
  - unfold NULL; lia.
  - reflexivity.
  - apply (H PJ_SUCCESS []); [simpl; unfold NULL; lia|reflexivity].
Defined.

Lemma transport_send_rtcp2_ignores_addr_witness :
  let w := stub_world attached_mux [] in
  let pkt := bytes_of [129; 200; 0; 1]%N in
  exists w',
    transport_send_rtcp2 stub_ops 10%N 77%N 16 pkt 4 w = Ok (PJ_SUCCESS, w') /\
    trace w' = [EvSendRtp 20%N pkt 4].
Proof.
  intros w pkt.
  destruct (transport_send_rtcp2_ignores_addr stub_ops w 10%N 77%N 16 pkt 4)
    as (_ & H).
  destruct (H attached_mux PJ_SUCCESS []) as (w' & Hrun & Htr & _).
  - unfold NULL; lia.
  - reflexivity.
  - simpl. unfold NULL; lia.
  - reflexivity.
  - exists w'. split; [exact Hrun|exact Htr].
Defined.

Lemma transport_encode_sdp_index_witness :
  let w := stub_world created_mux [] in
  transport_encode_sdp stub_ops 10%N 8%N 40%N NULL 16%N w = Fault OutOfBounds /\
  transport_encode_sdp stub_ops 10%N 8%N 40%N NULL 1%N w <> Fault OutOfBounds /\
  transport_encode_sdp stub_ops 10%N 8%N 40%N NULL 5%N w = Fault NullDeref.
Proof.
  intros w.
  assert (Hp : 10%N <> NULL) by (unfold NULL; lia).
  assert (Hpool : 8%N <> NULL) by (unfold NULL; lia).
  assert (Hl : 40%N <> NULL) by (unfold NULL; lia).
  assert (Hs : sessions (sdp w) !! 40%N = Some stub_session) by reflexivity.
  split; [|split].
  - apply (transport_encode_sdp_index stub_ops w 10%N 8%N 40%N NULL 16%N
             stub_session Hp Hpool Hl Hs).
    simpl. lia.
  - destruct (transport_encode_sdp_index stub_ops w 10%N 8%N 40%N NULL 1%N
                stub_session Hp Hpool Hl Hs) as (_ & Hin & _).
    destruct Hin as (m_loc & _ & _ & Hne); [simpl; lia|exact Hne].
  - destruct (transport_encode_sdp_index stub_ops w 10%N 8%N 40%N NULL 5%N
                stub_session Hp Hpool Hl Hs) as (_ & _ & _ & Hnull).
    destruct (Hnull created_mux NULL) as (st & w1 & _ & _ & _ & Hfault).
    + reflexivity.
    + reflexivity.
    + simpl. unfold NULL; lia.
    + now apply Hfault.
Defined.

(** C10, as stated, fails: the session has two media lines and the index is
    2, not below the count, yet the read is inside the array of sixteen
    slots and gives NULL without any indexing fault; the member transport
    is called, and the fault comes after it, on the NULL media pointer. *)
Lemma transport_encode_sdp_index_at_count :
  let w := stub_world created_mux [] in
  (media_count stub_session <= 2)%N /\
  sessions (sdp w) !! 40%N = Some stub_session /\
  load_media_slot 40%N 2%N w = Ok (NULL, w) /\
  transport_encode_sdp stub_ops 10%N 8%N 40%N NULL 2%N w <> Fault OutOfBounds /\
  transport_encode_sdp stub_ops 10%N 8%N 40%N NULL 2%N w = Fault NullDeref /\
  exists w1,
    pjmedia_transport_encode_sdp stub_ops 20%N 8%N 40%N NULL 2%N w
      = Ok (PJ_SUCCESS, w1) /\
    trace w1 = [EvEncodeSdp 20%N 8%N 40%N NULL 2%N] /\
    transport_encode_sdp stub_ops 10%N 8%N 40%N NULL 2%N w
      = bind (pjmedia_sdp_media_add_attr NULL (mk_sdp_attr ID_RTCPMUX None))
             (fun _ => ret PJ_SUCCESS) w1.
Proof.
  intros w. split; [vm_compute; discriminate|]. split; [reflexivity|].
  split; [reflexivity|]. split; [vm_compute; discriminate|].
  split; [reflexivity|].
  eexists. split; [reflexivity|]. split; reflexivity.
Defined.

Lemma mux_invariant_preserved_witness :
  match run_op stub_ops 10%N (OpAttach (Some stream_param))
               (stub_world created_mux []) with
  | Ok (_, w') => exists m', muxes w' !! 10%N = Some m' /\ mux_inv m'
  | Fault _ => False
  end.
Proof.
  destruct (mux_invariant_preserved stub_ops) as (_ & Hstep & Hrun).
  destruct (Hrun (stub_world created_mux []) 10%N created_mux stream_param NULL)
    as [(w' & Hatt) _].
  - unfold NULL; lia.
  - reflexivity.
  - simpl. unfold NULL; lia.
  - rewrite Hatt.
    destruct (Hstep (stub_world created_mux []) w' 10%N created_mux
                    (OpAttach (Some stream_param)))
      as (m' & Hm' & _ & Hinv).
    + reflexivity.
    + exact Hatt.
    + exists m'. split; [exact Hm'|]. apply Hinv.
      * unfold mux_inv. simpl. now repeat split.
      * simpl. repeat split; discriminate.
Defined.

(** C8, as stated, fails twice.  A second attach that the member transport
    refuses leaves the decorator attached with the three values cleared;
    an attach without an RTCP callback that the member transport accepts
    leaves it attached with the triple partly set. *)
Lemma mux_invariant_broken_by_attach :
  mux_inv attached_mux /\
  (exists w' m',
     run_op stub_ops 10%N (OpAttach (Some stream_param))
            (stub_world attached_mux [PJ_EBUSY]) = Ok (tt, w') /\
     muxes w' !! 10%N = Some m' /\
     member_tp_attached m' = true /\ triple_cleared m' /\ ~ mux_inv m') /\
  mux_inv created_mux /\
  (exists w' m',
     run_op stub_ops 10%N
            (OpAttach (Some (mk_attach_param 30%N (FnUser 1) FnNull 7%N)))
            (stub_world created_mux []) = Ok (tt, w') /\
     muxes w' !! 10%N = Some m' /\
     member_tp_attached m' = true /\
     rtp_cb m' = FnUser 1 /\ rtcp_cb m' = FnNull /\ ~ mux_inv m').
Proof.
  split; [|split; [|split]].
  - unfold mux_inv. simpl. repeat split; try discriminate.
  - eexists _, _. split; [vm_compute; reflexivity|].
    split; [vm_compute; reflexivity|].
    split; [reflexivity|]. split; [now repeat split|].
    unfold mux_inv. simpl. intros (H & _). now apply H.
  - unfold mux_inv. simpl. now repeat split.
  - eexists _, _. split; [vm_compute; reflexivity|].
    split; [vm_compute; reflexivity|].
    split; [reflexivity|]. split; [reflexivity|]. split; [reflexivity|].
    unfold mux_inv. simpl. intros (_ & H & _). now apply H.
Defined.

(** * Further properties of the operations *)

Section MuxMore.

Context {Rest Env : Type}.
Variable ops : @member_ops Rest Env.

Implicit Types (w : @world Rest Env) (m : transport_mux) (p tp : ptr).

(** The constructor with a NULL endpoint, member transport or result
    pointer. *)
Lemma pjmedia_transport_mux_create_null_args w (endpt tp p_tp : ptr) :
  endpt = NULL \/ tp = NULL \/ p_tp = NULL ->
  pjmedia_transport_mux_create ops endpt tp p_tp w = Ok ((PJ_EINVAL, None), w).
Proof.
  intros H. unfold pjmedia_transport_mux_create, PJ_ASSERT_RETURN.
  destruct H as [-> | [-> | ->]]; cbn [is_null N.eqb NULL negb andb];
    rewrite ?andb_false_r; reflexivity.
Qed.

(** The constructor with its three pointers present, by the answer of the
    lock factory. *)
Lemma pjmedia_transport_mux_create_run w (endpt tp p_tp : ptr) st e :
  endpt <> NULL -> tp <> NULL -> p_tp <> NULL ->
  op_lock_create ops (N.succ (brk w)) (env w) = (st, e) ->
  let pool_a := N.succ (brk w) in
  let mux_a := N.succ pool_a in
  let lock_a := N.succ mux_a in
  pjmedia_transport_mux_create ops endpt tp p_tp w =
  if Z.eqb st PJ_SUCCESS then
    Ok ((PJ_SUCCESS, Some mux_a),
        mk_world
          (<[mux_a := mk_transport_mux (op_pool_name ops pool_a) (op_type ops tp e)
                        pool_a lock_a NULL FnNull FnNull tp false]> (muxes w))
          (sdp w) e (trace w) lock_a)
  else
    Ok ((st, None),
        mk_world
          (filter (fun kv => pool (snd kv) <> pool_a)
                  (<[mux_a := set_pool pool_a zero_mux]> (muxes w)))
          (sdp w) e (trace w) mux_a).
Proof.
  intros He Ht Hp Hop pool_a mux_a lock_a. subst pool_a mux_a lock_a.
  unfold pjmedia_transport_mux_create, PJ_ASSERT_RETURN.
  rewrite !is_null_false by assumption. cbn [negb andb].
  unfold bind, pjmedia_endpt_create_pool, PJ_POOL_ZALLOC_T, bind, fresh_addr.
  cbn [brk with_brk muxes with_muxes].
  unfold modify_mux at 1. rewrite is_null_succ.
  cbn [muxes with_muxes]. rewrite lookup_insert_eq.
  unfold pj_lock_create_recursive_mutex.
  cbn [env with_muxes with_brk]. rewrite Hop.
  destruct (Z.eqb st PJ_SUCCESS) eqn:Hst.
  - apply Z.eqb_eq in Hst. subst st.
    unfold bind, fresh_addr, ret. cbn [fst snd Z.eqb PJ_SUCCESS negb].
    repeat (unfold modify_mux at 1; rewrite is_null_succ;
            cbn [muxes with_muxes with_env with_brk brk env];
            rewrite lookup_insert_eq).
    unfold with_muxes, with_env, with_brk. cbn.
    now rewrite !insert_insert_eq.
  - cbn [fst snd]. rewrite Hst. cbn [negb]. unfold pj_pool_release, ret.
    unfold with_muxes, with_env, with_brk. cbn.
    now rewrite !insert_insert_eq.
Qed.

(** X1.  The constructor fails in two ways.  With a NULL endpoint, member
    transport or result pointer it returns PJ_EINVAL and does nothing.
    When the lock cannot be created it returns the status of the lock
    factory and stores nothing through [p_tp]; the object it had allocated
    is released with its pool, no decorator that was not there before is
    left, and the member transport is not called. *)
Theorem pjmedia_transport_mux_create_failures w (endpt tp p_tp : ptr) st e :
  endpt <> NULL -> tp <> NULL -> p_tp <> NULL ->
  op_lock_create ops (N.succ (brk w)) (env w) = (st, e) ->
  st <> PJ_SUCCESS ->
  (forall endpt' tp' p_tp',
     endpt' = NULL \/ tp' = NULL \/ p_tp' = NULL ->
     pjmedia_transport_mux_create ops endpt' tp' p_tp' w
       = Ok ((PJ_EINVAL, None), w)) /\
  exists w',
    pjmedia_transport_mux_create ops endpt tp p_tp w = Ok ((st, None), w') /\
    muxes w' !! N.succ (N.succ (brk w)) = None /\
    (forall q m, muxes w' !! q = Some m -> muxes w !! q = Some m) /\
    trace w' = trace w /\ sdp w' = sdp w.
Proof.
  intros He Ht Hp Hop Hst.
  split; [intros; now apply pjmedia_transport_mux_create_null_args|].
  rewrite (pjmedia_transport_mux_create_run w endpt tp p_tp st e He Ht Hp Hop).
  apply Z.eqb_neq in Hst. rewrite Hst.
  eexists. split; [reflexivity|]. cbn [muxes trace sdp].
  split; [|split; [|split; reflexivity]].
  - apply map_lookup_filter_None. right. intros m Hm.
    rewrite lookup_insert_eq in Hm. injection Hm as <-. cbn. tauto.
  - intros q m Hq. apply map_lookup_filter_Some in Hq as [Hq Hpool].
    destruct (decide (q = N.succ (N.succ (brk w)))) as [->|Hne].
    + rewrite lookup_insert_eq in Hq. injection Hq as <-. cbn in Hpool. tauto.
    + now rewrite lookup_insert_ne in Hq.
Qed.

(** X2.  When the lock is created the constructor returns PJ_SUCCESS and a
    non-NULL pointer to a new decorator over [tp]: it has the type of the
    member transport, its own pool and lock, no callback, and is not
    attached.  The decorators at other addresses are untouched and the
    member transport is not called: construction does not attach. *)
Theorem pjmedia_transport_mux_create_success w (endpt tp p_tp : ptr) e :
  endpt <> NULL -> tp <> NULL -> p_tp <> NULL ->
  op_lock_create ops (N.succ (brk w)) (env w) = (PJ_SUCCESS, e) ->
  exists p w' m',
    pjmedia_transport_mux_create ops endpt tp p_tp w = Ok ((PJ_SUCCESS, Some p), w') /\
    p <> NULL /\ muxes w' !! p = Some m' /\
    member_tp m' = tp /\ base_type m' = op_type ops tp e /\
    pool m' <> NULL /\ mutex m' <> NULL /\ pool m' <> mutex m' /\
    member_tp_attached m' = false /\ triple_cleared m' /\
    (forall q, q <> p -> muxes w' !! q = muxes w !! q) /\
    trace w' = trace w /\ env w' = e /\ sdp w' = sdp w.
Proof.
  intros He Ht Hp Hop.
  rewrite (pjmedia_transport_mux_create_run w endpt tp p_tp PJ_SUCCESS e He Ht Hp Hop).
  cbn [Z.eqb PJ_SUCCESS].
  eexists _, _, _. split; [reflexivity|]. cbn [muxes trace env sdp].
  rewrite lookup_insert_eq.
  split; [unfold NULL; lia|]. split; [reflexivity|]. cbn.
  repeat split; try (unfold NULL; lia).
  intros q Hq. now apply lookup_insert_ne.
Qed.

(** [transport_destroy] on a live decorator. *)
Lemma transport_destroy_run w tp m :
  tp <> NULL -> muxes w !! tp = Some m ->
  transport_destroy tp w =
  Ok (PJ_SUCCESS,
      with_muxes (filter (fun kv => pool (snd kv) <> pool m) (muxes w)) w).
Proof.
  intros Hp Hm. unfold transport_destroy, PJ_ASSERT_RETURN.
  rewrite (is_null_false _ Hp). cbn [negb].
  unfold bind, pj_lock_acquire, pj_lock_release, pj_lock_destroy, ret.
  rewrite (load_mux_ok _ _ _ Hp Hm). reflexivity.
Qed.

(** X3.  [transport_destroy] answers PJ_EINVAL to a NULL transport and
    PJ_SUCCESS otherwise; the decorator is released with its pool, the
    decorators of other pools stay, and the member transport is neither
    detached nor destroyed: no call is made and its state is untouched. *)
Theorem transport_destroy_releases w tp m :
  tp <> NULL -> muxes w !! tp = Some m ->
  transport_destroy (Rest:=Rest) NULL w = Ok (PJ_EINVAL, w) /\
  exists w',
    transport_destroy tp w = Ok (PJ_SUCCESS, w') /\
    muxes w' !! tp = None /\
    (forall q m', pool m' <> pool m ->
                  muxes w !! q = Some m' -> muxes w' !! q = Some m') /\
    (forall q m', muxes w' !! q = Some m' -> muxes w !! q = Some m') /\
    trace w' = trace w /\ env w' = env w /\ sdp w' = sdp w.
Proof.
  intros Hp Hm. split; [reflexivity|].
  rewrite (transport_destroy_run w tp m Hp Hm).
  eexists. split; [reflexivity|]. cbn [muxes with_muxes trace env sdp].
  split; [|split; [|split; [|now repeat split]]].
  - apply map_lookup_filter_None. right. intros m' Hm'.
    rewrite Hm in Hm'. injection Hm' as <-. cbn. tauto.
  - intros q m' Hpool Hq. apply map_lookup_filter_Some. now split.
  - intros q m' Hq. now apply map_lookup_filter_Some in Hq as [Hq _].
Qed.

(** X4.  A destroyed decorator cannot be used: sending, attaching,
    detaching, a packet of the member transport and a second destroy all
    dereference the released object. *)
Theorem use_after_destroy_faults w w' tp m prm strm (pkt : list byte) (size : Z) :
  tp <> NULL -> muxes w !! tp = Some m ->
  transport_destroy tp w = Ok (PJ_SUCCESS, w') ->
  size <= Z.of_nat (length pkt) ->
  transport_send_rtp ops tp pkt size w' = Fault BadPointer /\
  transport_send_rtcp ops tp pkt size w' = Fault BadPointer /\
  transport_attach2 ops tp (Some prm) w' = Fault BadPointer /\
  transport_detach ops tp strm w' = Fault BadPointer /\
  mux_rtcp_cb tp pkt size w' = Fault BadPointer /\
  mux_rtp_cb tp pkt size w' = Fault BadPointer /\
  transport_destroy tp w' = Fault BadPointer.
Proof.
  intros Hp Hm Hd Hbuf. rewrite (transport_destroy_run w tp m Hp Hm) in Hd.
  injection Hd as <-.
  assert (Hgone : forall A (k : transport_mux -> mx A),
            bind (load_mux tp) k
                 (with_muxes (filter (fun kv => pool (snd kv) <> pool m) (muxes w)) w)
            = Fault BadPointer).
  { intros A k. unfold bind, load_mux. rewrite (is_null_false _ Hp).
    cbn [muxes with_muxes].
    replace (filter _ (muxes w) !! tp) with (@None transport_mux); [reflexivity|].
    symmetry. apply map_lookup_filter_None. right. intros m' Hm'.
    rewrite Hm in Hm'. injection Hm' as <-. cbn. tauto. }
  unfold transport_send_rtcp, transport_send_rtp, transport_send_rtcp2,
    transport_attach2, transport_detach, mux_rtcp_cb, transport_destroy,
    PJ_ASSERT_RETURN, param_is_null.
  rewrite (is_null_false _ Hp). cbn [negb andb].
  rewrite !Hgone. repeat split.
  unfold mux_rtp_cb, read_byte.
  destruct (Z.leb_spec 2 size) as [Hsz|Hsz].
  - destruct (pkt !! 1%nat) as [b|] eqn:Hb.
    2:{ apply lookup_ge_None in Hb. lia. }
    unfold bind at 1 2. unfold ret at 1 2.
    destruct ((64 <=? _) && (_ <? 96)); apply Hgone.
  - unfold bind at 1. unfold ret at 1. cbn [Z.leb Z.ltb andb Z.compare].
    apply Hgone.
Qed.

(** [mux_rtp_cb] once the type of the packet is known. *)
Lemma mux_rtp_cb_unfold w p (pkt : list byte) (size t : Z) :
  packet_type pkt size = Some t ->
  mux_rtp_cb p pkt size w =
  bind (load_mux p)
       (fun m => invoke_cb (if is_rtp_type t then rtp_cb m else rtcp_cb m)
                           (user_data m) pkt size) w.
Proof.
  unfold packet_type, mux_rtp_cb, read_byte, is_rtp_type. intros Ht.
  destruct (2 <=? size).
  - destruct (pkt !! 1%nat) as [b|]; [|discriminate]. injection Ht as <-.
    unfold bind at 1 2. unfold ret at 1 2.
    destruct ((64 <=? _) && (_ <? 96)); reflexivity.
  - injection Ht as <-. unfold bind at 1. unfold ret at 1. reflexivity.
Qed.

Lemma packet_type_defined (pkt : list byte) (size : Z) :
  size <= Z.of_nat (length pkt) -> exists t, packet_type pkt size = Some t.
Proof.
  intros Hbuf. unfold packet_type. destruct (Z.leb_spec 2 size); [|eauto].
  destruct (pkt !! 1%nat) eqn:Hb; [eauto|].
  apply lookup_ge_None in Hb. lia.
Qed.

(** X5.  On the RTP path a packet that is not classified as RTP is handled
    exactly as on the RTCP path, in every state of the decorator; a packet
    classified as RTP is handled differently as soon as the two callbacks
    differ; and a size of two or more over a buffer of fewer than two bytes
    reads outside the buffer. *)
Theorem mux_rtp_cb_agrees_with_rtcp_path w p (pkt : list byte) (size : Z) :
  (forall t, packet_type pkt size = Some t -> is_rtp_type t = false ->
             mux_rtp_cb p pkt size w = mux_rtcp_cb p pkt size w) /\
  (forall t m, packet_type pkt size = Some t -> is_rtp_type t = true ->
               p <> NULL -> muxes w !! p = Some m ->
               rtp_cb m <> FnNull -> rtp_cb m <> rtcp_cb m ->
               mux_rtp_cb p pkt size w <> mux_rtcp_cb p pkt size w) /\
  (packet_type pkt size = None ->
   2 <= size /\ (length pkt < 2)%nat /\
   mux_rtp_cb p pkt size w = Fault OutOfBounds).
Proof.
  split; [|split].
  - intros t Ht Hr. rewrite (mux_rtp_cb_unfold w p pkt size t Ht), Hr.
    reflexivity.
  - intros t m Ht Hr Hp Hm Hrtp Hne.
    rewrite (mux_rtp_cb_unfold w p pkt size t Ht), Hr.
    unfold mux_rtcp_cb, bind. rewrite (load_mux_ok _ _ _ Hp Hm).
    rewrite (invoke_cb_ok _ _ _ _ _ Hrtp). unfold invoke_cb.
    destruct (fn_is_null (rtcp_cb m)); [discriminate|].
    intros H.
    assert (Htr := f_equal (fun o => match o with
                                     | Ok (_, w0) => trace w0
                                     | Fault _ => []
                                     end) H).
    cbn in Htr. apply app_inv_head in Htr. injection Htr as Hf.
    contradiction.
  - unfold packet_type, mux_rtp_cb, read_byte.
    destruct (Z.leb_spec 2 size) as [Hsz|Hsz]; [|discriminate].
    destruct (pkt !! 1%nat) eqn:Hb; [discriminate|]. intros _.
    apply lookup_ge_None in Hb. split; [lia|]. split; [lia|reflexivity].
Qed.

Lemma land_127_low_bits (a b : Z) :
  (forall i, 0 <= i < 7 -> Z.testbit a i = Z.testbit b i) ->
  Z.land a 127 = Z.land b 127.
Proof.
  intros H. apply Z.bits_inj'. intros i Hi.
  rewrite !Z.land_spec.
  destruct (Z.lt_ge_cases i 7) as [Hlt|Hge].
  - now rewrite (H i (conj Hi Hlt)).
  - change 127 with (Z.ones 7). rewrite Z.ones_spec_high by lia.
    now rewrite !andb_false_r.
Qed.

(** X6.  The routing of the RTP path looks at nothing but the low seven
    bits of the second byte: two packets of two bytes or more whose second
    bytes agree on those bits go to the same callback, whatever their
    other bytes, their sizes and the top bit of that byte. *)
Theorem mux_rtp_cb_low_seven_bits w p m (pkt pkt' : list byte) (size size' : Z)
        (b b' : byte) :
  p <> NULL -> muxes w !! p = Some m ->
  rtp_cb m <> FnNull -> rtcp_cb m <> FnNull ->
  2 <= size -> 2 <= size' ->
  pkt !! 1%nat = Some b -> pkt' !! 1%nat = Some b' ->
  (forall i, 0 <= i < 7 ->
     Z.testbit (Z.of_N (Byte.to_N b)) i = Z.testbit (Z.of_N (Byte.to_N b')) i) ->
  exists f,
    mux_rtp_cb p pkt size w
      = Ok (tt, emit (EvCallback f (user_data m) pkt size) w) /\
    mux_rtp_cb p pkt' size' w
      = Ok (tt, emit (EvCallback f (user_data m) pkt' size') w).
Proof.
  intros Hp Hm Hrtp Hrtcp Hs Hs' Hb Hb' Hbits.
  pose proof (land_127_low_bits _ _ Hbits) as Hland.
  set (t := Z.land (Z.of_N (Byte.to_N b)) 127) in *.
  assert (Ht : packet_type pkt size = Some t).
  { unfold packet_type. destruct (Z.leb_spec 2 size); [|lia]. now rewrite Hb. }
  assert (Ht' : packet_type pkt' size' = Some t).
  { unfold packet_type. destruct (Z.leb_spec 2 size'); [|lia].
    rewrite Hb'. now rewrite <- Hland. }
  exists (if is_rtp_type t then rtp_cb m else rtcp_cb m).
  rewrite (mux_rtp_cb_unfold w p pkt size t Ht),
          (mux_rtp_cb_unfold w p pkt' size' t Ht').
  unfold bind. rewrite (load_mux_ok _ _ _ Hp Hm).
  destruct (is_rtp_type t); split; now apply invoke_cb_ok.
Qed.

(** X7.  Attach, then a packet.  After an attach that the member transport
    accepts, a packet that the member transport hands to the routines it
    was given, with the user data it was given, reaches the callbacks of
    the stream with the user data of the stream: the RTP or the RTCP one by
    its type on the RTP path, the RTCP one on the RTCP path. *)
Theorem attach_then_dispatch w tp m prm e (pkt : list byte) (size t : Z) :
  tp <> NULL -> muxes w !! tp = Some m -> member_tp m <> NULL ->
  op_attach2 ops (member_tp m) (shadow_param tp prm) (env w) = (PJ_SUCCESS, e) ->
  ap_rtp_cb prm <> FnNull -> ap_rtcp_cb prm <> FnNull ->
  packet_type pkt size = Some t ->
  exists w1,
    transport_attach2 ops tp (Some prm) w = Ok (PJ_SUCCESS, w1) /\
    mux_rtp_cb (ap_user_data (shadow_param tp prm)) pkt size w1
      = Ok (tt, emit (EvCallback (if is_rtp_type t then ap_rtp_cb prm
                                  else ap_rtcp_cb prm)
                                 (ap_user_data prm) pkt size) w1) /\
    mux_rtcp_cb (ap_user_data (shadow_param tp prm)) pkt size w1
      = Ok (tt, emit (EvCallback (ap_rtcp_cb prm) (ap_user_data prm) pkt size) w1).
Proof.
  intros Hp Hm Hmem Hop Hrtp Hrtcp Ht.
  rewrite (transport_attach2_run ops w tp m prm PJ_SUCCESS e Hp Hm Hmem Hop).
  cbn [Z.eqb PJ_SUCCESS]. eexists. split; [reflexivity|].
  cbn [shadow_param set_ap_rtcp_cb set_ap_rtp_cb set_ap_user_data ap_user_data].
  rewrite (mux_rtp_cb_unfold _ tp pkt size t Ht).
  unfold mux_rtcp_cb, bind, load_mux. rewrite (is_null_false _ Hp).
  cbn [muxes with_muxes]. rewrite lookup_insert_eq.
  cbn [rtp_cb rtcp_cb user_data set_member_tp_attached save_callbacks
       set_user_data set_rtcp_cb set_rtp_cb].
  split; [destruct (is_rtp_type t)|]; now apply invoke_cb_ok.
Qed.

(** The two dispatch routines on a decorator without callbacks. *)
Lemma dispatch_cleared_faults w tp m (pkt : list byte) (size : Z) :
  tp <> NULL -> muxes w !! tp = Some m -> triple_cleared m ->
  size <= Z.of_nat (length pkt) ->
  mux_rtp_cb tp pkt size w = Fault NullDeref /\
  mux_rtcp_cb tp pkt size w = Fault NullDeref.
Proof.
  intros Hp Hm (H1 & H2 & _) Hbuf.
  destruct (packet_type_defined pkt size Hbuf) as [t Ht].
  rewrite (mux_rtp_cb_unfold w tp pkt size t Ht).
  unfold mux_rtcp_cb, bind. rewrite (load_mux_ok _ _ _ Hp Hm).
  rewrite H1, H2. now destruct (is_rtp_type t).
Qed.

(** X8.  A packet for a decorator that has no callbacks is not dropped: the
    dispatch routines call through the NULL pointer.  This is the state of
    a decorator that was never attached, that was detached, or whose attach
    the member transport refused. *)
Theorem dispatch_without_callbacks_faults w tp m prm strm st e
        (pkt : list byte) (size : Z) :
  tp <> NULL -> muxes w !! tp = Some m ->
  size <= Z.of_nat (length pkt) ->
  (triple_cleared m ->
   mux_rtp_cb tp pkt size w = Fault NullDeref /\
   mux_rtcp_cb tp pkt size w = Fault NullDeref) /\
  (exists w1,
     transport_detach ops tp strm w = Ok (tt, w1) /\
     mux_rtp_cb tp pkt size w1 = Fault NullDeref /\
     mux_rtcp_cb tp pkt size w1 = Fault NullDeref) /\
  (member_tp m <> NULL ->
   op_attach2 ops (member_tp m) (shadow_param tp prm) (env w) = (st, e) ->
   st <> PJ_SUCCESS ->
   exists w1,
     transport_attach2 ops tp (Some prm) w = Ok (st, w1) /\
     mux_rtp_cb tp pkt size w1 = Fault NullDeref /\
     mux_rtcp_cb tp pkt size w1 = Fault NullDeref).
Proof.
  intros Hp Hm Hbuf. split; [|split].
  - intros Hc. now apply (dispatch_cleared_faults w tp m).
  - rewrite (transport_detach_run ops w tp m strm Hp Hm).
    eexists. split; [reflexivity|].
    eapply dispatch_cleared_faults; try eassumption.
    + cbn [muxes with_muxes]. apply lookup_insert_eq.
    + now repeat split.
  - intros Hmem Hop Hst.
    rewrite (transport_attach2_run ops w tp m prm st e Hp Hm Hmem Hop).
    apply Z.eqb_neq in Hst. rewrite Hst.
    eexists. split; [reflexivity|].
    eapply dispatch_cleared_faults; try eassumption.
    + cbn [muxes with_muxes]. apply lookup_insert_eq.
    + now repeat split.
Qed.

(** X9.  Attach then detach, on a decorator that was not attached, gives
    back the decorator as it was; the member transport saw one attach and
    one detach whose token is the user data of that attach. *)
Theorem attach_detach_round_trip w tp m prm strm e :
  tp <> NULL -> muxes w !! tp = Some m -> member_tp m <> NULL ->
  triple_cleared m -> member_tp_attached m = false ->
  op_attach2 ops (member_tp m) (shadow_param tp prm) (env w) = (PJ_SUCCESS, e) ->
  exists w1 w2,
    transport_attach2 ops tp (Some prm) w = Ok (PJ_SUCCESS, w1) /\
    transport_detach ops tp strm w1 = Ok (tt, w2) /\
    muxes w2 = muxes w /\
    trace w2 = trace w ++ [EvAttach2 (member_tp m) (shadow_param tp prm);
                           EvDetach (member_tp m)
                                    (ap_user_data (shadow_param tp prm))] /\
    env w2 = op_detach ops (member_tp m) tp e /\
    sdp w2 = sdp w.
Proof.
  intros Hp Hm Hmem (H1 & H2 & H3) Hatt Hop.
  rewrite (transport_attach2_run ops w tp m prm PJ_SUCCESS e Hp Hm Hmem Hop).
  cbn [Z.eqb PJ_SUCCESS]. eexists _, _. split; [reflexivity|].
  erewrite transport_detach_run; [|exact Hp|cbn [muxes with_muxes]; apply lookup_insert_eq].
  cbn [member_tp set_member_tp_attached save_callbacks
       set_user_data set_rtcp_cb set_rtp_cb].
  rewrite (is_null_false _ Hmem).
  split; [reflexivity|].
  cbn [muxes trace env sdp with_muxes emit with_env].
  split; [|split; [|split; reflexivity]].
  - rewrite insert_insert_eq. apply insert_id. rewrite Hm. f_equal.
    destruct m; cbn in *. now subst.
  - now rewrite <- app_assoc.
Qed.

(** X10.  Attach, detach, attach again: when the member transport accepts
    both attaches the decorator after the second is the decorator after
    the first, and the member transport was given the same parameters both
    times. *)
Theorem attach_detach_attach w tp m prm strm e1 e3 :
  tp <> NULL -> muxes w !! tp = Some m -> member_tp m <> NULL ->
  op_attach2 ops (member_tp m) (shadow_param tp prm) (env w) = (PJ_SUCCESS, e1) ->
  op_attach2 ops (member_tp m) (shadow_param tp prm)
             (op_detach ops (member_tp m) tp e1) = (PJ_SUCCESS, e3) ->
  exists w1 w2 w3,
    transport_attach2 ops tp (Some prm) w = Ok (PJ_SUCCESS, w1) /\
    transport_detach ops tp strm w1 = Ok (tt, w2) /\
    transport_attach2 ops tp (Some prm) w2 = Ok (PJ_SUCCESS, w3) /\
    muxes w3 = muxes w1 /\
    trace w3 = trace w ++ [EvAttach2 (member_tp m) (shadow_param tp prm);
                           EvDetach (member_tp m) tp;
                           EvAttach2 (member_tp m) (shadow_param tp prm)].
Proof.
  intros Hp Hm Hmem Hop1 Hop3.
  rewrite (transport_attach2_run ops w tp m prm PJ_SUCCESS e1 Hp Hm Hmem Hop1).
  cbn [Z.eqb PJ_SUCCESS]. eexists _, _, _. split; [reflexivity|].
  erewrite transport_detach_run; [|exact Hp|cbn [muxes with_muxes]; apply lookup_insert_eq].
  cbn [member_tp set_member_tp_attached save_callbacks clear_callbacks
       set_user_data set_rtcp_cb set_rtp_cb].
  rewrite (is_null_false _ Hmem).
  split; [reflexivity|].
  erewrite (transport_attach2_run ops _ tp _ prm PJ_SUCCESS e3 Hp);
    [|cbn [muxes with_muxes]; apply lookup_insert_eq|exact Hmem|exact Hop3].
  cbn [Z.eqb PJ_SUCCESS]. split; [reflexivity|].
  cbn [muxes trace with_muxes emit with_env].
  split.
  - now rewrite !insert_insert_eq.
  - now rewrite <- !app_assoc.
Qed.

(** X11.  Detach twice is detach once for the decorator, which is left
    cleared and not attached both times; the member transport is detached
    at each call. *)
Theorem transport_detach_twice w tp m strm strm' :
  tp <> NULL -> muxes w !! tp = Some m -> member_tp m <> NULL ->
  exists w1 w2,
    transport_detach ops tp strm w = Ok (tt, w1) /\
    transport_detach ops tp strm' w1 = Ok (tt, w2) /\
    muxes w2 = muxes w1 /\
    trace w2 = trace w ++ [EvDetach (member_tp m) tp; EvDetach (member_tp m) tp].
Proof.
  intros Hp Hm Hmem.
  rewrite (transport_detach_run ops w tp m strm Hp Hm).
  rewrite (is_null_false _ Hmem).
  eexists _, _. split; [reflexivity|].
  erewrite transport_detach_run; [|exact Hp|cbn [muxes with_muxes]; apply lookup_insert_eq].
  cbn [member_tp set_member_tp_attached clear_callbacks
       set_user_data set_rtcp_cb set_rtp_cb].
  rewrite (is_null_false _ Hmem).
  split; [reflexivity|].
  cbn [muxes trace with_muxes emit with_env].
  split.
  - now rewrite insert_insert_eq.
  - now rewrite <- app_assoc.
Qed.

(** X12.  An attach that fails leaves a decorator that was not attached as
    it was: with a NULL transport or NULL parameters nothing at all
    happens, and a refusal of the member transport is rolled back to the
    decorator of before the call. *)
Theorem transport_attach2_failure_restores w tp m prm st e :
  tp <> NULL -> muxes w !! tp = Some m -> member_tp m <> NULL ->
  triple_cleared m ->
  op_attach2 ops (member_tp m) (shadow_param tp prm) (env w) = (st, e) ->
  st <> PJ_SUCCESS ->
  transport_attach2 ops tp None w = Ok (PJ_EINVAL, w) /\
  transport_attach2 ops NULL (Some prm) w = Ok (PJ_EINVAL, w) /\
  exists w',
    transport_attach2 ops tp (Some prm) w = Ok (st, w') /\
    muxes w' = muxes w /\ sdp w' = sdp w /\
    trace w' = trace w ++ [EvAttach2 (member_tp m) (shadow_param tp prm)].
Proof.
  intros Hp Hm Hmem (H1 & H2 & H3) Hop Hst.
  split; [|split].
  - unfold transport_attach2, PJ_ASSERT_RETURN, param_is_null.
    now rewrite andb_false_r.
  - reflexivity.
  - rewrite (transport_attach2_run ops w tp m prm st e Hp Hm Hmem Hop).
    apply Z.eqb_neq in Hst. rewrite Hst.
    eexists. split; [reflexivity|].
    cbn [muxes trace sdp with_muxes emit with_env].
    split; [|split; reflexivity].
    apply insert_id. rewrite Hm. f_equal.
    destruct m; cbn in *. now subst.
Qed.

Lemma member_call_frame {A} w w' tp (ev : event) (op : Env -> A * Env) (r : A) :
  member_call tp ev op w = Ok (r, w') ->
  muxes w' = muxes w /\ sdp w' = sdp w /\ trace w' = trace w ++ [ev].
Proof.
  unfold member_call. destruct (is_null tp); [discriminate|].
  destruct (op (env w)) as [r' e]. intros [= <- <-]. now repeat split.
Qed.

Lemma load_mux_inv w w' p m :
  load_mux p w = Ok (m, w') -> w' = w /\ muxes w !! p = Some m.
Proof.
  unfold load_mux. destruct (is_null p); [discriminate|].
  destruct (muxes w !! p); [|discriminate]. now intros [= <- <-].
Qed.

(** X13.  The forwarding operations never write: whenever one of them
    returns, with the status of the member transport or with PJ_EINVAL, the
    decorators and the session descriptions are what they were. *)
Theorem forwarding_leaves_state w tp (pkt : list byte) (size : Z)
        (addr info sdp_pool sdp_local sdp_remote : ptr)
        (addr_len options dir pct_lost : Z) (media_index : N) :
  let kept (r : outcome (pj_status_t * world)) :=
    forall st w', r = Ok (st, w') -> muxes w' = muxes w /\ sdp w' = sdp w in
  kept (transport_send_rtp ops tp pkt size w) /\
  kept (transport_send_rtcp ops tp pkt size w) /\
  kept (transport_send_rtcp2 ops tp addr addr_len pkt size w) /\
  kept (transport_get_info ops tp info w) /\
  kept (transport_media_create ops tp sdp_pool options sdp_remote media_index w) /\
  kept (transport_media_start ops tp sdp_pool sdp_local sdp_remote media_index w) /\
  kept (transport_media_stop ops tp w) /\
  kept (transport_simulate_lost ops tp dir pct_lost w).
Proof.
  intros kept. subst kept. cbv beta.
  repeat apply conj; intros st w' H; revert H;
    unfold transport_send_rtp, transport_send_rtcp, transport_send_rtcp2,
      transport_get_info, transport_media_create, transport_media_start,
      transport_media_stop, transport_simulate_lost, PJ_ASSERT_RETURN, bind,
      pjmedia_transport_send_rtp, pjmedia_transport_get_info,
      pjmedia_transport_media_create, pjmedia_transport_media_start,
      pjmedia_transport_media_stop, pjmedia_transport_simulate_lost;
    repeat match goal with
      | |- context [match load_mux ?p ?w0 with _ => _ end] =>
          let Hl := fresh "Hl" in
          destruct (load_mux p w0) as [[? ?]|] eqn:Hl;
          [apply load_mux_inv in Hl as [-> _]|]
      | |- context [match member_call ?a ?b ?c ?w0 with _ => _ end] =>
          let Hc := fresh "Hc" in
          destruct (member_call a b c w0) as [[? ?]|] eqn:Hc;
          [apply member_call_frame in Hc as (? & ? & ?)|]
      | |- context [if ?c then _ else _] => destruct c
      end;
    unfold PJ_LOG, ret; try discriminate;
    try (intros [= <- <-]; cbn [muxes sdp emit]; split; congruence);
    try (intros Hr; apply member_call_frame in Hr as (? & ? & ?); split; congruence).
Qed.

(** One operation: what it leaves of the decorator and what it calls. *)
Lemma run_op_step w w' tp m (o : mux_op) :
  muxes w !! tp = Some m -> run_op ops tp o w = Ok (tt, w') ->
  exists m' evs,
    muxes w' !! tp = Some m' /\ same_identity m m' /\
    (unattached_cleared m -> unattached_cleared m') /\
    trace w' = trace w ++ evs /\
    Forall (decorator_event tp (member_tp m)) evs /\
    (length evs <= 1)%nat /\
    sdp w' = sdp w.
Proof.
  intros Hm Hrun.
  assert (Hsame : forall w0, muxes w0 !! tp = Some m -> exists m' evs,
            muxes w0 !! tp = Some m' /\ same_identity m m' /\
            (unattached_cleared m -> unattached_cleared m') /\
            trace w0 = trace w0 ++ evs /\
            Forall (decorator_event (Rest:=Rest) tp (member_tp m)) evs /\
            (length evs <= 1)%nat /\ sdp w0 = sdp w0).
  { intros w0 H0. exists m, []. rewrite app_nil_r.
    split; [exact H0|]. split; [now repeat split|]. split; [tauto|].
    split; [reflexivity|]. split; [constructor|].
    split; [cbn; lia|reflexivity]. }
  assert (Hone : forall (ev : event) m',
            same_identity m m' ->
            (unattached_cleared m -> unattached_cleared m') ->
            decorator_event tp (member_tp m) ev ->
            forall w0, muxes w0 !! tp = Some m' ->
                       trace w0 = trace w ++ [ev] -> sdp w0 = sdp w ->
            exists m'' evs,
              muxes w0 !! tp = Some m'' /\ same_identity m m'' /\
              (unattached_cleared m -> unattached_cleared m'') /\
              trace w0 = trace w ++ evs /\
              Forall (decorator_event tp (member_tp m)) evs /\
              (length evs <= 1)%nat /\ sdp w0 = sdp w).
  { intros ev m' Hid Hinv Hev w0 H0 Htr Hsdp. exists m', [ev].
    split; [exact H0|]. split; [exact Hid|]. split; [exact Hinv|].
    split; [exact Htr|]. split; [constructor; [exact Hev|constructor]|].
    split; [cbn; lia|exact Hsdp]. }
  destruct o as [[prm|]|strm|pkt size|pkt size]; cbn [run_op] in Hrun.
  - destruct (is_null tp) eqn:Hn.
    { unfold bind, transport_attach2, PJ_ASSERT_RETURN, ret in Hrun.
      rewrite Hn in Hrun. cbn in Hrun. injection Hrun as <-.
      now apply Hsame. }
    assert (Hp : tp <> NULL) by (intros ->; discriminate).
    destruct (is_null (member_tp m)) eqn:Hmem.
    { exfalso. revert Hrun.
      unfold bind, transport_attach2, PJ_ASSERT_RETURN, param_is_null.
      rewrite Hn. cbn [negb andb].
      unfold bind, pj_lock_acquire, pj_lock_release, ret.
      rewrite (load_mux_ok _ _ _ Hp Hm), (modify_mux_ok _ _ _ _ Hp Hm).
      repeat (unfold modify_mux at 1; rewrite Hn;
              cbn [muxes with_muxes]; rewrite lookup_insert_eq).
      unfold load_mux. rewrite Hn. cbn [muxes with_muxes].
      rewrite lookup_insert_eq.
      unfold pjmedia_transport_attach2, member_call.
      cbn [member_tp set_user_data set_rtcp_cb set_rtp_cb].
      rewrite Hmem. discriminate. }
    assert (Hmem' : member_tp m <> NULL)
      by (intros H; rewrite H in Hmem; discriminate).
    destruct (op_attach2 ops (member_tp m) (shadow_param tp prm) (env w))
      as [st e] eqn:Hop.
    unfold bind in Hrun.
    rewrite (transport_attach2_run ops w tp m prm st e Hp Hm Hmem' Hop) in Hrun.
    unfold ret in Hrun. injection Hrun as <-.
    apply (Hone (EvAttach2 (member_tp m) (shadow_param tp prm))
                (if Z.eqb st PJ_SUCCESS
                 then set_member_tp_attached true (save_callbacks prm m)
                 else clear_callbacks m)).
    + destruct (Z.eqb st PJ_SUCCESS); now repeat split.
    + destruct (Z.eqb st PJ_SUCCESS); intros _ Hatt;
        [discriminate|now repeat split].
    + now repeat split.
    + cbn [muxes with_muxes]. apply lookup_insert_eq.
    + reflexivity.
    + reflexivity.
  - unfold bind, transport_attach2, PJ_ASSERT_RETURN, param_is_null, ret in Hrun.
    rewrite andb_false_r in Hrun. injection Hrun as <-. now apply Hsame.
  - destruct (is_null tp) eqn:Hn.
    { unfold transport_detach, ret in Hrun. rewrite Hn in Hrun.
      injection Hrun as <-. now apply Hsame. }
    assert (Hp : tp <> NULL) by (intros ->; discriminate).
    rewrite (transport_detach_run ops w tp m strm Hp Hm) in Hrun.
    injection Hrun as <-.
    destruct (is_null (member_tp m)) eqn:Hmem.
    + exists (set_member_tp_attached false (clear_callbacks m)), [].
      cbn [muxes trace sdp with_muxes]. rewrite lookup_insert_eq, app_nil_r.
      split; [reflexivity|]. split; [now repeat split|].
      split; [intros _ _; now repeat split|].
      split; [reflexivity|]. split; [constructor|].
      split; [cbn; lia|reflexivity].
    + apply (Hone (EvDetach (member_tp m) tp)
                  (set_member_tp_attached false (clear_callbacks m))).
      * now repeat split.
      * intros _ _. now repeat split.
      * now split.
      * cbn [muxes with_muxes]. apply lookup_insert_eq.
      * reflexivity.
      * reflexivity.
  - revert Hrun. unfold mux_rtp_cb, bind, read_byte, load_mux, invoke_cb, ret, fail.
    destruct (2 <=? size); [destruct (pkt !! 1%nat)|];
      try discriminate;
      destruct ((64 <=? _) && (_ <? 96));
      destruct (is_null tp); try discriminate;
      rewrite Hm;
      match goal with
      | |- context [fn_is_null ?f] => destruct (fn_is_null f) eqn:Hf
      end; try discriminate;
      intros [= <-];
      (eapply (Hone _ m); [now repeat split|tauto| |exact Hm|reflexivity|reflexivity];
       cbn; intros Hnull; rewrite Hnull in Hf; discriminate).
  - revert Hrun. unfold mux_rtcp_cb, bind, load_mux, invoke_cb.
    destruct (is_null tp); try discriminate. rewrite Hm.
    destruct (fn_is_null (rtcp_cb m)) eqn:Hf; try discriminate.
    intros [= <-].
    eapply (Hone _ m); [now repeat split|tauto| |exact Hm|reflexivity|reflexivity].
    cbn. intros Hnull. rewrite Hnull in Hf. discriminate.
Qed.

(** A sequence of operations, by induction on the sequence. *)
Lemma run_ops_inv (l : list mux_op) :
  forall w w' tp m,
    muxes w !! tp = Some m -> run_ops ops tp l w = Ok (tt, w') ->
    exists m' evs,
      muxes w' !! tp = Some m' /\ same_identity m m' /\
      (unattached_cleared m -> unattached_cleared m') /\
      trace w' = trace w ++ evs /\
      Forall (decorator_event tp (member_tp m)) evs /\
      (length evs <= length l)%nat /\
      sdp w' = sdp w.
Proof.
  induction l as [|o l IH]; intros w w' tp m Hm Hrun.
  - cbn in Hrun. injection Hrun as <-. exists m, []. rewrite app_nil_r.
    split; [exact Hm|]. split; [now repeat split|]. split; [tauto|].
    split; [reflexivity|]. split; [constructor|].
    split; [cbn; lia|reflexivity].
  - cbn [run_ops] in Hrun. unfold bind in Hrun.
    destruct (run_op ops tp o w) as [[[] w1]|] eqn:Hop; [|discriminate].
    destruct (run_op_step w w1 tp m o Hm Hop)
      as (m1 & evs1 & Hm1 & Hid1 & Hinv1 & Htr1 & Hev1 & Hlen1 & Hsdp1).
    destruct (IH w1 w' tp m1 Hm1 Hrun)
      as (m' & evs & Hm' & Hid' & Hinv' & Htr & Hev & Hlen & Hsdp).
    exists m', (evs1 ++ evs).
    destruct Hid1 as (I1 & I2 & I3 & I4 & I5), Hid' as (J1 & J2 & J3 & J4 & J5).
    rewrite I5 in Hev.
    split; [exact Hm'|]. split; [repeat split; congruence|].
    split; [auto|]. split; [now rewrite Htr, Htr1, app_assoc|].
    split; [now apply Forall_app|]. split; [|congruence].
    rewrite length_app. cbn [length]. lia.
Qed.

(** X14.  However attach, detach and packets of the member transport
    follow one another, a decorator stays at its address with the name,
    type, pool, lock and member transport of its construction, and a
    decorator that had no callbacks while not attached never has any while
    not attached. *)
Theorem run_ops_keeps_identity (l : list mux_op) w w' tp m :
  muxes w !! tp = Some m -> run_ops ops tp l w = Ok (tt, w') ->
  exists m',
    muxes w' !! tp = Some m' /\
    base_name m' = base_name m /\ base_type m' = base_type m /\
    pool m' = pool m /\ mutex m' = mutex m /\ member_tp m' = member_tp m /\
    (unattached_cleared m -> unattached_cleared m').
Proof.
  intros Hm Hrun.
  destruct (run_ops_inv l w w' tp m Hm Hrun)
    as (m' & evs & Hm' & (I1 & I2 & I3 & I4 & I5) & Hinv & _).
  exists m'. repeat (split; [assumption|]). exact Hinv.
Qed.

(** X15.  However attach, detach and packets follow one another, the calls
    that leave the decorator are of three kinds only: the member transport
    of its construction is attached with the decorator as user data and
    the two dispatch routines as callbacks, never with those of the
    stream; it is detached with the decorator as token; a callback is
    called through a pointer that is not NULL.  There is at most one call
    for each operation, nothing is sent, and the session descriptions are
    untouched. *)
Theorem run_ops_calls (l : list mux_op) w w' tp m :
  muxes w !! tp = Some m -> run_ops ops tp l w = Ok (tt, w') ->
  exists evs,
    trace w' = trace w ++ evs /\
    Forall (decorator_event tp (member_tp m)) evs /\
    (length evs <= length l)%nat /\
    sdp w' = sdp w.
Proof.
  intros Hm Hrun.
  destruct (run_ops_inv l w w' tp m Hm Hrun)
    as (m' & evs & _ & _ & _ & Htr & Hev & Hlen & Hsdp).
  now exists evs.
Qed.

(** X16.  The member transport of a decorator is the one given to the
    constructor, for its whole life: after the construction and any
    sequence of attach, detach and packets, a send goes to that transport
    with the packet as given, and returns its status. *)
Theorem created_decorator_sends_to_member w (endpt tp p_tp : ptr) e0
        (l : list mux_op) w1 w2 (pkt : list byte) (size : Z) st e :
  endpt <> NULL -> tp <> NULL -> p_tp <> NULL ->
  op_lock_create ops (N.succ (brk w)) (env w) = (PJ_SUCCESS, e0) ->
  let p := N.succ (N.succ (brk w)) in
  pjmedia_transport_mux_create ops endpt tp p_tp w = Ok ((PJ_SUCCESS, Some p), w1) ->
  run_ops ops p l w1 = Ok (tt, w2) ->
  op_send_rtp ops tp pkt size (env w2) = (st, e) ->
  transport_send_rtp ops p pkt size w2
    = Ok (st, emit (EvSendRtp tp pkt size) (with_env e w2)) /\
  transport_send_rtcp ops p pkt size w2
    = Ok (st, emit (EvSendRtp tp pkt size) (with_env e w2)).
Proof.
  intros He Ht Hp Hlock p Hcreate Hrun Hop.
  rewrite (pjmedia_transport_mux_create_run w endpt tp p_tp PJ_SUCCESS e0
             He Ht Hp Hlock) in Hcreate.
  cbn [Z.eqb PJ_SUCCESS] in Hcreate. injection Hcreate as <-.
  pose proof (fun m H => run_ops_inv l _ w2 p m H Hrun) as Hinv.
  edestruct Hinv as (m' & evs & Hm' & (_ & _ & _ & _ & Hmem) & _).
  { cbn [muxes]. subst p. apply lookup_insert_eq. }
  cbn [member_tp] in Hmem.
  assert (Hpn : p <> NULL) by (subst p; unfold NULL; lia).
  unfold transport_send_rtcp, transport_send_rtcp2, transport_send_rtp, bind.
  rewrite (load_mux_ok _ _ _ Hpn Hm'), Hmem.
  unfold pjmedia_transport_send_rtp.
  rewrite (member_call_ok _ _ _ _ st e Ht Hop). now split.
Qed.

Lemma land_127_mod (v : Z) : 0 <= v -> Z.land v 127 = v mod 128.
Proof.
  intros Hv. change 127 with (Z.ones 7). now rewrite Z.land_ones by lia.
Qed.

(** X17.  The routing of the RTP path, read on the second byte itself: of
    the 256 values the 64 in 64..95 and 192..223 go to the RTP callback,
    among them the RTCP packet types 200 to 207, and all the others go
    to the RTCP callback, among them the RTP payload types 96 to 127 with
    or without the marker bit. *)
Theorem mux_rtp_cb_by_second_byte w p m (pkt : list byte) (size : Z) (b : byte) :
  p <> NULL -> muxes w !! p = Some m ->
  rtp_cb m <> FnNull -> rtcp_cb m <> FnNull ->
  2 <= size -> pkt !! 1%nat = Some b ->
  let v := Z.of_N (Byte.to_N b) in
  let routed f :=
    mux_rtp_cb p pkt size w
    = Ok (tt, emit (EvCallback f (user_data m) pkt size) w) in
  0 <= v < 256 /\
  (64 <= v < 96 \/ 192 <= v < 224 -> routed (rtp_cb m)) /\
  (v < 64 \/ 96 <= v < 192 \/ 224 <= v -> routed (rtcp_cb m)).
Proof.
  intros Hp Hm Hrtp Hrtcp Hs Hb v routed. subst routed.
  assert (Hv : 0 <= v < 256).
  { subst v. pose proof (Byte.to_N_bounded b). lia. }
  assert (Ht : packet_type pkt size = Some (v mod 128)).
  { unfold packet_type. destruct (Z.leb_spec 2 size); [|lia].
    rewrite Hb. fold v. now rewrite land_127_mod by lia. }
  assert (Hrun : mux_rtp_cb p pkt size w =
                 Ok (tt, emit (EvCallback (if is_rtp_type (v mod 128)
                                           then rtp_cb m else rtcp_cb m)
                                          (user_data m) pkt size) w)).
  { rewrite (mux_rtp_cb_unfold w p pkt size _ Ht). unfold bind.
    rewrite (load_mux_ok _ _ _ Hp Hm).
    destruct (is_rtp_type (v mod 128)); now apply invoke_cb_ok. }
  split; [exact Hv|]. rewrite Hrun. unfold is_rtp_type.
  split; intros H.
  - replace ((64 <=? v mod 128) && (v mod 128 <? 96)) with true; [reflexivity|].
    symmetry. apply andb_true_iff. rewrite Z.leb_le, Z.ltb_lt.
    destruct H; Z.div_mod_to_equations; lia.
  - replace ((64 <=? v mod 128) && (v mod 128 <? 96)) with false; [reflexivity|].
    symmetry. apply andb_false_iff. rewrite Z.leb_gt, Z.ltb_ge.
    destruct H as [H | [H | H]]; Z.div_mod_to_equations; lia.
Qed.

End MuxMore.

(** * The further statements at the stub transport *)

Lemma pjmedia_transport_mux_create_failures_witness :
  let w := stub_world created_mux [PJ_EBUSY] in
  pjmedia_transport_mux_create stub_ops 1%N NULL 2%N w = Ok ((PJ_EINVAL, None), w) /\
  exists w',
    pjmedia_transport_mux_create stub_ops 1%N 20%N 2%N w = Ok ((PJ_EBUSY, None), w') /\
    muxes w' !! 52%N = None /\ trace w' = [].
Proof.
  intros w.
  assert (He : 1%N <> NULL) by (unfold NULL; lia).
  assert (Ht : 20%N <> NULL) by (unfold NULL; lia).
  assert (Hp : 2%N <> NULL) by (unfold NULL; lia).
  assert (Hop : op_lock_create stub_ops (N.succ (brk w)) (env w) = (PJ_EBUSY, []))
    by reflexivity.
  assert (Hst : PJ_EBUSY <> PJ_SUCCESS) by (unfold PJ_EBUSY, PJ_SUCCESS; lia).
  destruct (pjmedia_transport_mux_create_failures stub_ops w 1%N 20%N 2%N
              PJ_EBUSY [] He Ht Hp Hop Hst)
    as (Hnull & w' & Hrun & Hgone & _ & Htr & _).
  split.
  - apply Hnull. right. left. reflexivity.
  - exists w'. split; [exact Hrun|]. split; [exact Hgone|exact Htr].
Defined.

Lemma pjmedia_transport_mux_create_success_witness :
  let w := stub_world created_mux [] in
  exists p w' m',
    pjmedia_transport_mux_create stub_ops 1%N 20%N 2%N w
      = Ok ((PJ_SUCCESS, Some p), w') /\
    muxes w' !! p = Some m' /\ member_tp m' = 20%N /\
    member_tp_attached m' = false /\ trace w' = [].
Proof.
  intros w.
  assert (He : 1%N <> NULL) by (unfold NULL; lia).
  assert (Ht : 20%N <> NULL) by (unfold NULL; lia).
  assert (Hp : 2%N <> NULL) by (unfold NULL; lia).
  assert (Hop : op_lock_create stub_ops (N.succ (brk w)) (env w) = (PJ_SUCCESS, []))
    by reflexivity.
  destruct (pjmedia_transport_mux_create_success stub_ops w 1%N 20%N 2%N []
              He Ht Hp Hop)
    as (p & w' & m' & Hrun & Hpn & Hm' & Hmem & _ & _ & _ & _ & Hatt & _ & _ & Htr & _).
  exists p, w', m'. repeat (split; [assumption|]). exact Htr.
Defined.

Lemma transport_destroy_releases_witness :
  let w := stub_world attached_mux [] in
  exists w',
    transport_destroy 10%N w = Ok (PJ_SUCCESS, w') /\
    muxes w' !! 10%N = None /\ trace w' = [] /\ env w' = [].
Proof.
  intros w.
  assert (Hp : 10%N <> NULL) by (unfold NULL; lia).
  assert (Hm : muxes w !! 10%N = Some attached_mux) by reflexivity.
  destruct (transport_destroy_releases w 10%N attached_mux Hp Hm)
    as (_ & w' & Hrun & Hgone & _ & _ & Htr & Henv & _).
  exists w'. split; [exact Hrun|]. split; [exact Hgone|].
  split; [exact Htr|exact Henv].
Defined.

Lemma use_after_destroy_faults_witness :
  let w := stub_world attached_mux [] in
  let pkt := bytes_of [128; 72]%N in
  match transport_destroy 10%N w with
  | Ok (_, w') =>
      transport_send_rtp stub_ops 10%N pkt 2 w' = Fault BadPointer /\
      mux_rtp_cb 10%N pkt 2 w' = Fault BadPointer
  | Fault _ => False
  end.
Proof.
  intros w pkt.
  assert (Hp : 10%N <> NULL) by (unfold NULL; lia).
  assert (Hm : muxes w !! 10%N = Some attached_mux) by reflexivity.
  assert (Hbuf : 2 <= Z.of_nat (length pkt)) by (simpl; lia).
  pose proof (transport_destroy_run w 10%N attached_mux Hp Hm) as Hd.
  rewrite Hd.
  destruct (use_after_destroy_faults stub_ops w _ 10%N attached_mux stream_param
              30%N pkt 2 Hp Hm Hd Hbuf) as (H1 & _ & _ & _ & _ & H2 & _).
  split; [exact H1|exact H2].
Defined.

Lemma mux_rtp_cb_agrees_with_rtcp_path_witness :
  let w := stub_world attached_mux [] in
  mux_rtp_cb 10%N (bytes_of [128; 10]%N) 2 w
    = mux_rtcp_cb 10%N (bytes_of [128; 10]%N) 2 w /\
  mux_rtp_cb 10%N (bytes_of [128; 72]%N) 2 w
    <> mux_rtcp_cb 10%N (bytes_of [128; 72]%N) 2 w /\
  mux_rtp_cb 10%N (bytes_of [128]%N) 2 w = Fault OutOfBounds.
Proof.
  intros w.
  assert (Hp : 10%N <> NULL) by (unfold NULL; lia).
  assert (Hm : muxes w !! 10%N = Some attached_mux) by reflexivity.
  split; [|split].
  - apply (proj1 (mux_rtp_cb_agrees_with_rtcp_path w 10%N (bytes_of [128; 10]%N) 2)
             10); reflexivity.
  - apply (proj1 (proj2 (mux_rtp_cb_agrees_with_rtcp_path w 10%N
                           (bytes_of [128; 72]%N) 2)) 72 attached_mux);
      try reflexivity; try exact Hp; simpl; congruence.
  - apply (proj2 (proj2 (mux_rtp_cb_agrees_with_rtcp_path w 10%N
                           (bytes_of [128]%N) 2))). reflexivity.
Defined.

Lemma mux_rtp_cb_low_seven_bits_witness :
  let w := stub_world attached_mux [] in
  exists f,
    mux_rtp_cb 10%N (bytes_of [128; 72]%N) 2 w
      = Ok (tt, emit (EvCallback f 30%N (bytes_of [128; 72]%N) 2) w) /\
    mux_rtp_cb 10%N (bytes_of [0; 200; 1; 2]%N) 4 w
      = Ok (tt, emit (EvCallback f 30%N (bytes_of [0; 200; 1; 2]%N) 4) w).
Proof.
  intros w.
  apply (mux_rtp_cb_low_seven_bits w 10%N attached_mux
           (bytes_of [128; 72]%N) (bytes_of [0; 200; 1; 2]%N) 2 4 x48 xc8).
  - unfold NULL; lia.
  - reflexivity.
  - simpl; congruence.
  - simpl; congruence.
  - lia.
  - lia.
  - reflexivity.
  - reflexivity.
  - intros i Hi.
    assert (Hcases : i = 0 \/ i = 1 \/ i = 2 \/ i = 3 \/ i = 4 \/ i = 5 \/ i = 6)
      by lia.
    destruct Hcases as [-> | [-> | [-> | [-> | [-> | [-> | ->]]]]]]; reflexivity.
Defined.

Lemma attach_then_dispatch_witness :
  let w := stub_world created_mux [] in
  let pkt := bytes_of [128; 72]%N in
  exists w1,
    transport_attach2 stub_ops 10%N (Some stream_param) w = Ok (PJ_SUCCESS, w1) /\
    mux_rtp_cb 10%N pkt 2 w1 = Ok (tt, emit (EvCallback (FnUser 1) 30%N pkt 2) w1) /\
    mux_rtcp_cb 10%N pkt 2 w1 = Ok (tt, emit (EvCallback (FnUser 2) 30%N pkt 2) w1).
Proof.
  intros w pkt.
  apply (attach_then_dispatch stub_ops w 10%N created_mux stream_param [] pkt 2 72).
  - unfold NULL; lia.
  - reflexivity.
  - simpl. unfold NULL; lia.
  - reflexivity.
  - simpl; congruence.
  - simpl; congruence.
  - reflexivity.
Defined.

Lemma dispatch_without_callbacks_faults_witness :
  let w := stub_world attached_mux [PJ_EBUSY] in
  let pkt := bytes_of [128; 72]%N in
  (exists w1,
     transport_detach stub_ops 10%N 30%N w = Ok (tt, w1) /\
     mux_rtp_cb 10%N pkt 2 w1 = Fault NullDeref /\
     mux_rtcp_cb 10%N pkt 2 w1 = Fault NullDeref) /\
  (exists w1,
     transport_attach2 stub_ops 10%N (Some stream_param) w = Ok (PJ_EBUSY, w1) /\
     mux_rtp_cb 10%N pkt 2 w1 = Fault NullDeref /\
     mux_rtcp_cb 10%N pkt 2 w1 = Fault NullDeref).
Proof.
  intros w pkt.
  assert (Hp : 10%N <> NULL) by (unfold NULL; lia).
  assert (Hm : muxes w !! 10%N = Some attached_mux) by reflexivity.
  assert (Hbuf : 2 <= Z.of_nat (length pkt)) by (simpl; lia).
  destruct (dispatch_without_callbacks_faults stub_ops w 10%N attached_mux
              stream_param 30%N PJ_EBUSY [] pkt 2 Hp Hm Hbuf)
    as (_ & Hdet & Hatt).
  split; [exact Hdet|]. apply Hatt.
  - simpl. unfold NULL; lia.
  - reflexivity.
  - unfold PJ_EBUSY, PJ_SUCCESS; lia.
Defined.

Lemma attach_detach_round_trip_witness :
  let w := stub_world created_mux [] in
  exists w1 w2,
    transport_attach2 stub_ops 10%N (Some stream_param) w = Ok (PJ_SUCCESS, w1) /\
    transport_detach stub_ops 10%N 30%N w1 = Ok (tt, w2) /\
    muxes w2 = muxes w /\
    trace w2 = [EvAttach2 20%N (mk_attach_param 10%N FnMuxRtp FnMuxRtcp 7%N);
                EvDetach 20%N 10%N].
Proof.
  intros w.
  destruct (attach_detach_round_trip stub_ops w 10%N created_mux stream_param
              30%N [])
    as (w1 & w2 & H1 & H2 & H3 & H4 & _).
  - unfold NULL; lia.
  - reflexivity.
  - simpl. unfold NULL; lia.
  - now repeat split.
  - reflexivity.
  - reflexivity.
  - exists w1, w2. split; [exact H1|]. split; [exact H2|].
    split; [exact H3|exact H4].
Defined.

Lemma attach_detach_attach_witness :
  let w := stub_world created_mux [] in
  exists w1 w2 w3,
    transport_attach2 stub_ops 10%N (Some stream_param) w = Ok (PJ_SUCCESS, w1) /\
    transport_detach stub_ops 10%N 30%N w1 = Ok (tt, w2) /\
    transport_attach2 stub_ops 10%N (Some stream_param) w2 = Ok (PJ_SUCCESS, w3) /\
    muxes w3 = muxes w1.
Proof.
  intros w.
  destruct (attach_detach_attach stub_ops w 10%N created_mux stream_param
              30%N [] [])
    as (w1 & w2 & w3 & H1 & H2 & H3 & H4 & _).
  - unfold NULL; lia.
  - reflexivity.
  - simpl. unfold NULL; lia.
  - reflexivity.
  - reflexivity.
  - exists w1, w2, w3. split; [exact H1|]. split; [exact H2|].
    split; [exact H3|exact H4].
Defined.

Lemma transport_detach_twice_witness :
  let w := stub_world attached_mux [] in
  exists w1 w2,
    transport_detach stub_ops 10%N 30%N w = Ok (tt, w1) /\
    transport_detach stub_ops 10%N 30%N w1 = Ok (tt, w2) /\
    muxes w2 = muxes w1 /\
    trace w2 = [EvDetach 20%N 10%N; EvDetach 20%N 10%N].
Proof.
  intros w.
  apply (transport_detach_twice stub_ops w 10%N attached_mux 30%N 30%N).
  - unfold NULL; lia.
  - reflexivity.
  - simpl. unfold NULL; lia.
Defined.

Lemma transport_attach2_failure_restores_witness :
  let w := stub_world created_mux [PJ_EBUSY] in
  transport_attach2 stub_ops 10%N None w = Ok (PJ_EINVAL, w) /\
  exists w',
    transport_attach2 stub_ops 10%N (Some stream_param) w = Ok (PJ_EBUSY, w') /\
    muxes w' = muxes w.
Proof.
  intros w.
  destruct (transport_attach2_failure_restores stub_ops w 10%N created_mux
              stream_param PJ_EBUSY [])
    as (Hnone & _ & w' & Hrun & Hsame & _).
  - unfold NULL; lia.
  - reflexivity.
  - simpl. unfold NULL; lia.
  - now repeat split.
  - reflexivity.
  - unfold PJ_EBUSY, PJ_SUCCESS; lia.
  - split; [exact Hnone|]. exists w'. split; [exact Hrun|exact Hsame].
Defined.

Lemma forwarding_leaves_state_witness :
  let w := stub_world attached_mux [PJ_EBUSY] in
  match transport_media_stop stub_ops 10%N w with
  | Ok (_, w') => muxes w' = muxes w /\ sdp w' = sdp w
  | Fault _ => False
  end.
Proof.
  intros w.
  destruct (forwarding_leaves_state stub_ops w 10%N [] 0 NULL NULL NULL NULL NULL
              0 0 0 0 0%N) as (_ & _ & _ & _ & _ & _ & Hstop & _).
  destruct (transport_media_stop stub_ops 10%N w) as [[st w']|f] eqn:Hrun.
  - now apply (Hstop st w').
  - vm_compute in Hrun. discriminate.
Defined.

Lemma run_ops_keeps_identity_witness :
  let w := stub_world created_mux [] in
  let pkt := bytes_of [128; 72]%N in
  let l := [OpAttach (Some stream_param); OpRtp pkt 2; OpRtcp pkt 2;
            OpDetach 30%N; OpAttach (Some stream_param)] in
  match run_ops stub_ops 10%N l w with
  | Ok (_, w') =>
      exists m', muxes w' !! 10%N = Some m' /\ member_tp m' = 20%N /\
                 pool m' = 8%N /\ mutex m' = 9%N
  | Fault _ => False
  end.
Proof.
  intros w pkt l.
  destruct (run_ops stub_ops 10%N l w) as [[[] w']|f] eqn:Hrun.
  - assert (Hm : muxes w !! 10%N = Some created_mux) by reflexivity.
    destruct (run_ops_keeps_identity stub_ops l w w' 10%N created_mux Hm Hrun)
      as (m' & Hm' & _ & _ & Hpool & Hmutex & Hmem & _).
    exists m'. split; [exact Hm'|]. split; [exact Hmem|].
    split; [exact Hpool|exact Hmutex].
  - vm_compute in Hrun. discriminate.
Defined.

Lemma run_ops_calls_witness :
  let w := stub_world created_mux [] in
  let pkt := bytes_of [128; 72]%N in
  let l := [OpAttach (Some stream_param); OpRtp pkt 2; OpRtcp pkt 2;
            OpDetach 30%N; OpAttach (Some stream_param)] in
  match run_ops stub_ops 10%N l w with
  | Ok (_, w') =>
      exists evs, trace w' = evs /\
                  Forall (decorator_event 10%N 20%N) evs /\
                  (length evs <= 5)%nat
  | Fault _ => False
  end.
Proof.
  intros w pkt l.
  destruct (run_ops stub_ops 10%N l w) as [[[] w']|f] eqn:Hrun.
  - assert (Hm : muxes w !! 10%N = Some created_mux) by reflexivity.
    destruct (run_ops_calls stub_ops l w w' 10%N created_mux Hm Hrun)
      as (evs & Htr & Hev & Hlen & _).
    exists evs. split; [exact Htr|]. split; [exact Hev|exact Hlen].
  - vm_compute in Hrun. discriminate.
Defined.

Lemma created_decorator_sends_to_member_witness :
  let w := stub_world created_mux [] in
  let pkt := bytes_of [128; 72]%N in
  let l := [OpAttach (Some stream_param); OpRtp pkt 2; OpDetach 30%N] in
  match pjmedia_transport_mux_create stub_ops 1%N 20%N 2%N w with
  | Ok (_, w1) =>
      match run_ops stub_ops 52%N l w1 with
      | Ok (_, w2) =>
          transport_send_rtp stub_ops 52%N pkt 2 w2
          = Ok (PJ_SUCCESS, emit (EvSendRtp 20%N pkt 2) (with_env [] w2))
      | Fault _ => False
      end
  | Fault _ => False
  end.
Proof.
  intros w pkt l.
  assert (He : 1%N <> NULL) by (unfold NULL; lia).
  assert (Ht : 20%N <> NULL) by (unfold NULL; lia).
  assert (Hp : 2%N <> NULL) by (unfold NULL; lia).
  assert (Hlock : op_lock_create stub_ops (N.succ (brk w)) (env w) = (PJ_SUCCESS, []))
    by reflexivity.
  pose proof (pjmedia_transport_mux_create_run stub_ops w 1%N 20%N 2%N PJ_SUCCESS []
                He Ht Hp Hlock) as Hcreate.
  cbn [Z.eqb PJ_SUCCESS] in Hcreate. cbv zeta in Hcreate.
  rewrite Hcreate.
  match type of Hcreate with _ = Ok (_, ?W) => set (w1 := W) in * end.
  destruct (run_ops stub_ops 52%N l w1) as [[[] w2]|f] eqn:Hrun.
  - assert (Hop : op_send_rtp stub_ops 20%N pkt 2 (env w2) = (PJ_SUCCESS, [])).
    { assert (Henv : env w2 = []).
      { revert Hrun. vm_compute. intros [= <-]. reflexivity. }
      rewrite Henv. reflexivity. }
    apply (created_decorator_sends_to_member stub_ops w 1%N 20%N 2%N [] l w1 w2
             pkt 2 PJ_SUCCESS [] He Ht Hp Hlock Hcreate Hrun Hop).
  - vm_compute in Hrun. discriminate.
Defined.

Lemma mux_rtp_cb_by_second_byte_witness :
  let w := stub_world attached_mux [] in
  mux_rtp_cb 10%N (bytes_of [129; 200]%N) 2 w
    = Ok (tt, emit (EvCallback (FnUser 1) 30%N (bytes_of [129; 200]%N) 2) w) /\
  mux_rtp_cb 10%N (bytes_of [128; 96]%N) 2 w
    = Ok (tt, emit (EvCallback (FnUser 2) 30%N (bytes_of [128; 96]%N) 2) w).
Proof.
  intros w.
  assert (Hp : 10%N <> NULL) by (unfold NULL; lia).
  assert (Hm : muxes w !! 10%N = Some attached_mux) by reflexivity.
  assert (Hrtp : rtp_cb attached_mux <> FnNull) by (simpl; congruence).
  assert (Hrtcp : rtcp_cb attached_mux <> FnNull) by (simpl; congruence).
  assert (H2 : 2 <= 2) by lia.
  split.
  - destruct (mux_rtp_cb_by_second_byte w 10%N attached_mux (bytes_of [129; 200]%N)
                2 xc8 Hp Hm Hrtp Hrtcp H2 eq_refl) as (_ & Hin & _).
    apply Hin. right. vm_compute. split; [discriminate|reflexivity].
  - destruct (mux_rtp_cb_by_second_byte w 10%N attached_mux (bytes_of [128; 96]%N)
                2 x60 Hp Hm Hrtp Hrtcp H2 eq_refl) as (_ & _ & Hout).
    apply Hout. right. left. vm_compute. split; [discriminate|reflexivity].
Defined.
